(** * JIGSAWS 3D trajectory video generator: a shallow embedding

    Source: [jigsaws_data_visualisation.py], class
    [JIGSAWS3DVideoGeneratorEnhanced].

    Conventions of the embedding.
    - Python [str] values are [string]s whose characters are code points
      below 256; text outside that range is not covered.
    - Python [int] values are [Z]; NumPy integer cells are [Z] as well,
      which is exact as long as the parsed frame numbers fit 64 bits.
    - Floating-point results computed by the program itself (time stamps,
      the progress percentage) are rationals [Q]: the exact value of the
      expression before IEEE rounding and before [%.1f] formatting.
    - The numeric cells of the kinematics table are an abstract type
      [cell]: extraction only moves them around.
    - Exceptions are values of [result]; the library calls whose outcome
      is not determined by the program text (file system, [np.loadtxt],
      the Matplotlib writers, [anim.save]) are fields of a [world]. *)

From Stdlib Require Import Ascii String QArith.
From stdpp Require Import base list strings gmap pretty.

Open Scope string_scope.
Open Scope list_scope.
Open Scope Z_scope.

(** ** Exceptions *)

Inductive exn : Type :=
  | IndexError
  | ValueError
  | KeyError
  | TypeError
  | ZeroDivisionError
  | OSError.

Inductive result (A : Type) : Type :=
  | Ok (a : A)
  | Raise (e : exn).
Arguments Ok {A} a.
Arguments Raise {A} e.

Definition rbind {A B} (r : result A) (k : A -> result B) : result B :=
  match r with
  | Ok a => k a
  | Raise e => Raise e
  end.

Notation "'do' x <- r ; k" := (rbind r (fun x => k))
  (at level 10, x name, r at level 100, k at level 200).

Definition is_ok {A} (r : result A) : bool :=
  match r with Ok _ => true | Raise _ => false end.

(** ** Python string primitives used by the program *)

Module PyStr.

(** [str.isspace] on code points below 256: TAB..CR, FS..US, space,
    NEL (0x85) and NBSP (0xA0). *)
Definition isspace (c : ascii) : bool :=
  let n := Z.of_nat (nat_of_ascii c) in
  ((9 <=? n) && (n <=? 13)) || ((28 <=? n) && (n <=? 32))
  || (n =? 133) || (n =? 160).

Fixpoint lstrip (s : string) : string :=
  match s with
  | EmptyString => EmptyString
  | String c s' => if isspace c then lstrip s' else s
  end.

Definition rstrip (s : string) : string :=
  String.rev (lstrip (String.rev s)).

(** [s.strip()] *)
Definition strip (s : string) : string := rstrip (lstrip s).

(** [s.split()] with no argument: the maximal runs of non-space
    characters, left to right.  [cur] is the token being read. *)
Fixpoint split_go (cur : string) (s : string) : list string :=
  match s with
  | EmptyString => if String.eqb cur "" then [] else [cur]
  | String c s' =>
      if isspace c
      then (if String.eqb cur "" then split_go "" s'
            else cur :: split_go "" s')
      else split_go (cur +:+ String c "") s'
  end.

Definition split (s : string) : list string := split_go "" s.

(** [s.startswith(p)] *)
Definition startswith (p s : string) : bool := String.prefix p s.

(** [s[1:]] *)
Definition tail (s : string) : string :=
  match s with
  | EmptyString => EmptyString
  | String _ s' => s'
  end.

Definition digit_val (c : ascii) : option Z :=
  let n := Z.of_nat (nat_of_ascii c) in
  if (48 <=? n) && (n <=? 57) then Some (n - 48) else None.

(** The digit part of a base-10 literal accepted by [int()]:
    [digit (["_"] digit)*].  [prev] tells whether the previous character
    was a digit (so that an underscore is allowed here and the literal
    may end here). *)
Fixpoint digits_go (acc : Z) (prev : bool) (s : string) : option Z :=
  match s with
  | EmptyString => if prev then Some acc else None
  | String c s' =>
      match digit_val c with
      | Some d => digits_go (10 * acc + d) true s'
      | None =>
          if Ascii.eqb c "_" then
            (if prev then digits_go acc false s' else None)
          else None
      end
  end.

(** [int(s)]: surrounding whitespace is dropped, then an optional sign
    and the digit part.  [None] stands for [ValueError].  (The
    interpreter's optional cap on the number of digits is not
    modelled.) *)
Definition int (s : string) : option Z :=
  match strip s with
  | String "-" d => Z.opp <$> digits_go 0 false d
  | String "+" d => digits_go 0 false d
  | d => digits_go 0 false d
  end.

(** [s.replace(old, new)] for a non-empty [old]: [skip] counts the
    characters of the occurrence of [old] that is being consumed. *)
Fixpoint replace_go (old new : string) (skip : nat) (s : string) : string :=
  match s with
  | EmptyString => EmptyString
  | String c s' =>
      match skip with
      | S k => replace_go old new k s'
      | O =>
          if String.prefix old s
          then new +:+ replace_go old new (String.length old - 1) s'
          else String c (replace_go old new 0 s')
      end
  end.

Fixpoint replace_empty (new s : string) : string :=
  match s with
  | EmptyString => new
  | String c s' => new +:+ String c (replace_empty new s')
  end.

Definition replace (old new s : string) : string :=
  if String.eqb old "" then replace_empty new s
  else replace_go old new 0 s.

(** Iterating a text file opened with universal newlines: each of
    LF, CR LF and CR ends a line and is delivered as LF. *)
Fixpoint readlines_go (cur : string) (s : string) : list string :=
  match s with
  | EmptyString => if String.eqb cur "" then [] else [cur]
  | String c s' =>
      if Ascii.eqb c "010" then (cur +:+ String "010" "") :: readlines_go "" s'
      else if Ascii.eqb c "013" then
        match s' with
        | String c' s'' =>
            if Ascii.eqb c' "010"
            then (cur +:+ String "010" "") :: readlines_go "" s''
            else (cur +:+ String "010" "") :: readlines_go "" s'
        | EmptyString => [cur +:+ String "010" ""]
        end
      else readlines_go (cur +:+ String c "") s'
  end.

Definition readlines (s : string) : list string := readlines_go "" s.

End PyStr.

(** ** Indexing and slicing of sequences with Python integers *)

(** [a[i]] : a negative index counts from the end; out of range is
    [IndexError]. *)
Definition py_index {A} (a : list A) (i : Z) : result A :=
  let n := Z.of_nat (length a) in
  let j := if i <? 0 then i + n else i in
  if (0 <=? j) && (j <? n) then
    match a !! Z.to_nat j with
    | Some x => Ok x
    | None => Raise IndexError
    end
  else Raise IndexError.

(** A slice bound is clipped into [0, len]; it never raises. *)
Definition clip_bound (n i : Z) : Z :=
  if i <? 0 then Z.max 0 (i + n) else Z.min i n.

(** [a[start:stop]] *)
Definition py_slice {A} (a : list A) (start stop : Z) : list A :=
  let n := Z.of_nat (length a) in
  let s := clip_bound n start in
  let e := clip_bound n stop in
  take (Z.to_nat (e - s)) (drop (Z.to_nat s) a).

(** ** Gesture intervals and the transcription loader *)

(** One row [[start_frame, end_frame, gesture_id]] of
    [transcriptions_data]. *)
Record interval : Type := Interval {
  start_frame : Z;
  end_frame : Z;
  gesture_id : Z
}.

(** The gesture token: ["G<int>"] or a bare integer. *)
Definition parse_gesture (gesture_str : string) : option Z :=
  if PyStr.startswith "G" gesture_str
  then PyStr.int (PyStr.tail gesture_str)
  else PyStr.int gesture_str.

(** The body of [if len(parts) >= 3: try: ... except ValueError: continue].
    [None] means that nothing is appended for this line. *)
Definition parse_parts (parts : list string) : option interval :=
  match parts with
  | p0 :: p1 :: p2 :: _ =>
      start ← PyStr.int p0;
      stop ← PyStr.int p1;
      gid ← parse_gesture p2;
      Some (Interval start stop gid)
  | _ => None
  end.

(** One iteration of the [for line_num, line in enumerate(f, 1)] loop. *)
Definition parse_line (line : string) : option interval :=
  let line := PyStr.strip line in
  if String.eqb line "" then None
  else parse_parts (PyStr.split line).

(** The loop itself, with the list [transcriptions] it appends to. *)
Fixpoint load_loop (transcriptions : list interval) (lines : list string)
  : list interval :=
  match lines with
  | [] => transcriptions
  | line :: rest =>
      match parse_line line with
      | Some iv => load_loop (transcriptions ++ [iv]) rest
      | None => load_loop transcriptions rest
      end
  end.

(** What the transcription file looks like to the program. *)
Inductive trans_source : Type :=
  | TransMissing                 (* [exists()] is false *)
  | TransUnreadable              (* [open]/decoding raises *)
  | TransText (content : string).

(** [if transcriptions: np.array(transcriptions) else: None] *)
Definition store_transcriptions (transcriptions : list interval)
  : option (list interval) :=
  match transcriptions with
  | [] => None
  | _ => Some transcriptions
  end.

Definition load_transcriptions (src : trans_source) : option (list interval) :=
  match src with
  | TransMissing => None
  | TransUnreadable => None
  | TransText content =>
      store_transcriptions (load_loop [] (PyStr.readlines content))
  end.

(** ** Gesture lookup *)

(** The dictionary [gestures] of [create_combined_trajectory_video]. *)
Definition gestures : gmap Z string :=
  list_to_map
    [ (1, "Reaching for needle");
      (2, "Positioning needle/tool");
      (3, "Pushing needle through tissue");
      (4, "Transferring needle L<->R");
      (5, "Moving to center");
      (6, "Pulling suture");
      (8, "Orienting needle");
      (9, "Tightening suture");
      (10, "Loosening suture");
      (11, "Dropping/completing");
      (12, "Knot tying motion");
      (13, "Knot securing");
      (14, "Knot tightening");
      (15, "Final knot adjustment") ].

(** [gestures.get(gesture_id, f"Gesture {gesture_id}")] *)
Definition gesture_label (gid : Z) : string :=
  default ("Gesture " +:+ pretty gid) (gestures !! gid).

(** The [for start, end, gesture_id in self.transcriptions_data] loop. *)
Fixpoint gesture_scan (rows : list interval) (frame_idx : Z) : string :=
  match rows with
  | [] => "Transition"
  | iv :: rest =>
      if (start_frame iv <=? frame_idx) && (frame_idx <=? end_frame iv)
      then gesture_label (gesture_id iv)
      else gesture_scan rest frame_idx
  end.

Definition get_current_gesture (transcriptions_data : option (list interval))
  (frame_idx : Z) : string :=
  match transcriptions_data with
  | None => "No gesture data"
  | Some rows => gesture_scan rows frame_idx
  end.

(** ** Constants of [__init__] *)

Definition fps : Z := 30.
Definition trail_length : Z := 150.

(** A view angle [(elev, azim)] and the entry of a task in
    [task_configs]. *)
Record task_config : Type := TaskConfig {
  master_view : Z * Z;
  slave_view : Z * Z;
  color_left : string;
  color_right : string;
  description : string
}.

Definition task_configs : gmap string task_config :=
  list_to_map
    [ ("Suturing",
       TaskConfig (20, 45) (15, 0) "#FF4444" "#4444FF"
         "Suturing Task: Precise needle work through tissue");
      ("Needle_Passing",
       TaskConfig (25, 30) (25, 30) "#FF6B35" "#2E8B57"
         "Needle Passing: Threading through metal hoops");
      ("Knot_Tying",
       TaskConfig (20, 60) (20, 0) "#9B59B6" "#E67E22"
         "Knot Tying: Creating secure surgical knots") ].

(** [self.task_configs[self.task]] *)
Definition task_config_of (task : string) : result task_config :=
  match task_configs !! task with
  | Some c => Ok c
  | None => Raise KeyError
  end.

(** ** The kinematics table *)

Section Kinematics.

(** The type of a numeric cell of the table. *)
Variable cell : Type.

(** The array returned by [np.loadtxt]: two-dimensional in general,
    but one-dimensional for a file of one row or of one column (or an
    empty file), and zero-dimensional for a file holding one number. *)
Inductive ndarray : Type :=
  | Arr0 (x : cell)
  | Arr1 (v : list cell)
  | Arr2 (ncols : nat) (rows : list (list cell)).

(** The rows of a two-dimensional array all have [ncols] cells. *)
Definition wf_array (a : ndarray) : Prop :=
  match a with
  | Arr2 ncols rows => Forall (fun r => length r = ncols) rows
  | _ => True
  end.

(** [len(a)] *)
Definition array_len (a : ndarray) : result nat :=
  match a with
  | Arr0 _ => Raise TypeError
  | Arr1 v => Ok (length v)
  | Arr2 _ rows => Ok (length rows)
  end.

(** [a[:, cols]] with a list of non-negative column numbers. *)
Definition take_columns (a : ndarray) (cols : list nat)
  : result (list (list cell)) :=
  match a with
  | Arr2 ncols rows =>
      if forallb (fun c => Nat.ltb c ncols) cols
      then Ok (map (fun row => omap (fun c => row !! c) cols) rows)
      else Raise IndexError
  | _ => Raise IndexError
  end.

(** [a[:, col]] with one non-negative column number. *)
Definition take_column (a : ndarray) (col : nat) : result (list cell) :=
  match a with
  | Arr2 ncols rows =>
      if Nat.ltb col ncols
      then Ok (omap (fun row => row !! col) rows)
      else Raise IndexError
  | _ => Raise IndexError
  end.

(** What the kinematics file looks like to the program. *)
Inductive kin_source : Type :=
  | KinMissing                   (* [exists()] is false *)
  | KinUnparseable               (* [np.loadtxt] raises *)
  | KinArray (a : ndarray).

(** ** The generator object *)

Record generator : Type := Generator {
  subject_id : string;
  task : string;
  kinematics_data : option ndarray;
  transcriptions_data : option (list interval);
  frame_count : nat
}.

(** [__init__] *)
Definition init (subject task : string) : generator :=
  Generator subject task None None 0.

(** [load_data]: the returned flag and the object afterwards.  An
    exception in the kinematics block is caught and gives [False]; the
    transcription block never changes the flag. *)
Definition load_data (kin : kin_source) (trans : trans_source)
    (self : generator) : bool * generator :=
  match kin with
  | KinMissing => (false, self)
  | KinUnparseable => (false, self)
  | KinArray a =>
      let self1 :=
        Generator (subject_id self) (task self) (Some a)
                  (transcriptions_data self) (frame_count self) in
      match array_len a with
      | Raise _ => (false, self1)
      | Ok n =>
          (true,
           Generator (subject_id self) (task self) (Some a)
                     (load_transcriptions trans) n)
      end
  end.

(** ** Manipulator extraction *)

(** The dictionary returned by [extract_manipulator_data]. *)
Record bundle : Type := Bundle {
  positions : list (list cell);
  velocities : list (list cell);
  gripper : list cell;
  time : list Q
}.

(** The [if]/[elif] chain on [manipulator_type]:
    [(pos_cols, vel_cols, gripper_col)]. *)
Definition manipulator_columns (manipulator_type : string)
  : option (list nat * list nat * nat) :=
  if String.eqb manipulator_type "master_left" then
    Some ([0; 1; 2], [12; 13; 14], 18)%nat
  else if String.eqb manipulator_type "master_right" then
    Some ([19; 20; 21], [31; 32; 33], 37)%nat
  else if String.eqb manipulator_type "slave_right" then
    Some ([38; 39; 40], [50; 51; 52], 56)%nat
  else if String.eqb manipulator_type "slave_left" then
    Some ([57; 58; 59], [69; 70; 71], 75)%nat
  else None.

(** [np.arange(n) / self.fps] *)
Definition time_axis (n : nat) : list Q :=
  map (fun i => inject_Z (Z.of_nat i) / inject_Z fps)%Q (seq 0 n).

(** [extract_manipulator_data]: [Ok None] is the returned [None]. *)
Definition extract_manipulator_data (self : generator)
    (manipulator_type : string) : result (option bundle) :=
  match kinematics_data self with
  | None => Ok None
  | Some a =>
      match manipulator_columns manipulator_type with
      | None => Ok None
      | Some (pos_cols, vel_cols, gripper_col) =>
          do p <- take_columns a pos_cols;
          do v <- take_columns a vel_cols;
          do g <- take_column a gripper_col;
          do n <- array_len a;
          Ok (Some (Bundle p v g (time_axis n)))
      end
  end.

End Kinematics.

Arguments Arr0 {cell} x.
Arguments Arr1 {cell} v.
Arguments Arr2 {cell} ncols rows.
Arguments KinMissing {cell}.
Arguments KinUnparseable {cell}.
Arguments KinArray {cell} a.
Arguments Generator {cell}.
Arguments subject_id {cell}.
Arguments task {cell}.
Arguments kinematics_data {cell}.
Arguments transcriptions_data {cell}.
Arguments frame_count {cell}.
Arguments Bundle {cell}.
Arguments positions {cell}.
Arguments velocities {cell}.
Arguments gripper {cell}.
Arguments time {cell}.
Arguments init {cell}.
Arguments wf_array {cell}.
Arguments array_len {cell}.
Arguments take_columns {cell}.
Arguments take_column {cell}.
Arguments load_data {cell}.
Arguments extract_manipulator_data {cell}.

(** ** The per-frame update *)

(** The numbers put into [time_text]: the time stamp, [frame], the
    denominator [len(positions) - 1] of the frame counter, and the
    percentage after ["Progress: "]. *)
Record time_info : Type := TimeInfo {
  current_time : Q;
  frame_shown : Z;
  last_frame_shown : Z;
  progress : Q
}.

(** [(frame / len(left_data["positions"]) * 100)] *)
Definition progress_percent (frame : Z) (len : nat) : result Q :=
  if Nat.eqb len 0 then Raise ZeroDivisionError
  else Ok (inject_Z frame / inject_Z (Z.of_nat len) * 100)%Q.

(** [trail_start] and [trail_end] of [animate]. *)
Definition trail_bounds (frame : Z) : Z * Z :=
  (Z.max 0 (frame - trail_length), frame + 1).

Section Animation.

(** The cells again, and [np.linalg.norm] on a vector of cells. *)
Variable cell : Type.
Variable norm : list cell -> cell.

(** The three coordinate sequences handed to [set_data_3d]. *)
Record trail : Type := Trail {
  trail_x : list cell;
  trail_y : list cell;
  trail_z : list cell
}.

(** [positions[trail_start:trail_end, k]] (the position array always
    has three columns). *)
Definition slice_column (a : list (list cell)) (start stop : Z) (k : nat)
  : list cell :=
  omap (fun row => row !! k) (py_slice a start stop).

(** The guarded trail update: [None] when the [if] is not taken and the
    trail artist is left untouched. *)
Definition trail_update (pos : list (list cell)) (frame : Z) : option trail :=
  let '(trail_start, trail_end) := trail_bounds frame in
  if trail_start <? trail_end then
    Some (Trail (slice_column pos trail_start trail_end 0)
                (slice_column pos trail_start trail_end 1)
                (slice_column pos trail_start trail_end 2))
  else None.

(** [[a[frame, 0]], [a[frame, 1]], [a[frame, 2]]] *)
Definition point_at (a : list (list cell)) (frame : Z) : result (list cell) :=
  do row <- py_index a frame;
  do x <- py_index row 0;
  do y <- py_index row 1;
  do z <- py_index row 2;
  Ok [x; y; z].

Record tool_info : Type := ToolInfo {
  vel : cell;
  gripper_angle : cell
}.

(** What one call of [animate] puts on the figure. *)
Record frame_render : Type := FrameRender {
  left_trail : option trail;
  left_current : list cell;
  right_trail : option trail;
  right_current : list cell;
  time_text : time_info;
  left_info : tool_info;
  right_info : tool_info;
  gesture_text : string
}.

Definition animate (transcriptions : option (list interval))
    (left_data right_data : bundle cell) (frame : Z) : result frame_render :=
  let lt := trail_update (positions left_data) frame in
  do lc <- point_at (positions left_data) frame;
  let rt := trail_update (positions right_data) frame in
  do rc <- point_at (positions right_data) frame;
  do current_time <- py_index (time left_data) frame;
  do lv <- py_index (velocities left_data) frame;
  do rv <- py_index (velocities right_data) frame;
  do left_gripper <- py_index (gripper left_data) frame;
  do right_gripper <- py_index (gripper right_data) frame;
  let current_gesture := get_current_gesture transcriptions frame in
  let len := length (positions left_data) in
  do pct <- progress_percent frame len;
  Ok (FrameRender lt lc rt rc
        (TimeInfo current_time frame (Z.of_nat len - 1) pct)
        (ToolInfo (norm lv) left_gripper)
        (ToolInfo (norm rv) right_gripper)
        current_gesture).

(** ** Writer selection *)

Inductive writer : Type :=
  | FFMpegWriter
  | PillowWriter.

(** The outcome of the library and file-system calls of one run. *)
Record world : Type := World {
  kin : kin_source cell;
  trans : trans_source;
  available_writers : list string;      (* [animation.writers.list()] *)
  ffmpeg_constructs : bool;             (* the [try] block does not raise *)
  pillow_constructs : bool;
  save_succeeds : writer -> string -> bool;  (* [anim.save] does not raise *)
  mkdir_succeeds : bool
}.

Definition get_best_video_writer (w : world) (output_filename : string)
  : option writer * string :=
  if bool_decide ("ffmpeg" ∈ available_writers w) && ffmpeg_constructs w
  then (Some FFMpegWriter, output_filename)
  else if bool_decide ("pillow" ∈ available_writers w) && pillow_constructs w
  then (Some PillowWriter, PyStr.replace ".mp4" ".gif" output_filename)
  else (None, output_filename).

(** ** Rendering one group *)

Inductive event : Type :=
  | EvRender (group : string)           (* a render is started *)
  | EvFigureOpen                        (* [plt.figure] *)
  | EvSave (wr : writer) (filename : string)   (* [anim.save] is called *)
  | EvFigureClose.                      (* [plt.close(fig)] *)

(** A computation with a trace: the events happen also when the
    computation ends in an exception. *)
Definition traced (A : Type) : Type := list event * result A.

Definition tret {A} (a : A) : traced A := ([], Ok a).
Definition emit (e : event) : traced unit := ([e], Ok tt).
Definition lift {A} (r : result A) : traced A := ([], r).

Definition tbind {A B} (m : traced A) (k : A -> traced B) : traced B :=
  match m with
  | (l, Ok a) => let '(l', r) := k a in (l ++ l', r)
  | (l, Raise e) => (l, Raise e)
  end.

Notation "'run' x <- m ; k" := (tbind m (fun x => k))
  (at level 10, x name, m at level 100, k at level 200).

(** The [if]/[elif] on [manipulator_group]: the two roles and the view
    taken from the task's configuration. *)
Definition group_roles (manipulator_group : string)
  : option (string * string * (task_config -> Z * Z)) :=
  if String.eqb manipulator_group "master" then
    Some ("master_left", "master_right", master_view)
  else if String.eqb manipulator_group "slave" then
    Some ("slave_left", "slave_right", slave_view)
  else None.

(** [all_positions[:, k].min()] and [.max()] need one row at least. *)
Definition axis_limits_defined (all_positions : list (list cell))
  : result unit :=
  match all_positions with
  | [] => Raise ValueError
  | _ => Ok tt
  end.

(** [anim.save] inside [try ... except Exception: return False]: every
    frame [0 .. len-1] is drawn by [animate], then the writer encodes. *)
Definition save_animation (w : world) (self : generator cell)
    (left_data right_data : bundle cell) (wr : writer) (filename : string)
  : bool :=
  forallb
    (fun f => is_ok (animate (transcriptions_data self) left_data right_data
                             (Z.of_nat f)))
    (seq 0 (length (positions left_data)))
  && save_succeeds w wr filename.

Definition create_combined_trajectory_video (w : world)
    (self : generator cell) (manipulator_group output_filename : string)
  : traced bool :=
  run _ <- emit (EvRender manipulator_group);
  match group_roles manipulator_group with
  | None => tret false
  | Some (left_role, right_role, view) =>
      run left_data <- lift (extract_manipulator_data self left_role);
      run right_data <- lift (extract_manipulator_data self right_role);
      run cfg <- lift (task_config_of (task self));
      match left_data, right_data with
      | Some left_data, Some right_data =>
          run _ <- emit EvFigureOpen;
          run _ <- lift (axis_limits_defined
                      (positions left_data ++ positions right_data));
          run _ <- lift (point_at (positions left_data) 0);
          run _ <- lift (point_at (positions right_data) 0);
          match get_best_video_writer w output_filename with
          | (None, _) =>
              run _ <- emit EvFigureClose;
              tret false
          | (Some wr, corrected_filename) =>
              run _ <- emit (EvSave wr corrected_filename);
              let saved :=
                save_animation w self left_data right_data wr
                               corrected_filename in
              run _ <- emit EvFigureClose;
              tret saved
          end
      | _, _ => tret false
      end
  end.

(** ** The orchestrator *)

(** [str(Path(output_dir) / f"{task}_{subject_id}_{group}_combined.mp4")]
    for a plain relative directory name. *)
Definition output_file (output_dir : string) (self : generator cell)
    (group : string) : string :=
  output_dir +:+ "/" +:+ task self +:+ "_" +:+ subject_id self +:+ "_"
    +:+ group +:+ "_combined.mp4".

Definition b2z (b : bool) : Z := if b then 1 else 0.

(** [create_all_videos].  The list [created_files] and the summary
    report do not influence the returned flag and are left out. *)
Definition create_all_videos (w : world) (self : generator cell)
    (output_dir : string) : traced bool :=
  let '(loaded, self) := load_data (kin w) (trans w) self in
  if negb loaded then tret false
  else
    run _ <- lift (if mkdir_succeeds w then Ok tt else Raise OSError);
    run m <- create_combined_trajectory_video w self "master"
               (output_file output_dir self "master");
    run s <- create_combined_trajectory_video w self "slave"
               (output_file output_dir self "slave");
    let success_count := b2z m + b2z s in
    tret (0 <? success_count).

End Animation.

Arguments Trail {cell}.
Arguments trail_x {cell}.
Arguments trail_y {cell}.
Arguments trail_z {cell}.
Arguments slice_column {cell}.
Arguments trail_update {cell}.
Arguments point_at {cell}.
Arguments left_trail {cell}.
Arguments left_current {cell}.
Arguments right_trail {cell}.
Arguments right_current {cell}.
Arguments time_text {cell}.
Arguments left_info {cell}.
Arguments right_info {cell}.
Arguments gesture_text {cell}.
Arguments animate {cell}.
Arguments World {cell}.
Arguments kin {cell}.
Arguments trans {cell}.
Arguments available_writers {cell}.
Arguments ffmpeg_constructs {cell}.
Arguments pillow_constructs {cell}.
Arguments save_succeeds {cell}.
Arguments mkdir_succeeds {cell}.
Arguments get_best_video_writer {cell}.
Arguments save_animation {cell}.
Arguments create_combined_trajectory_video {cell}.
Arguments output_file {cell}.
Arguments create_all_videos {cell}.
Arguments axis_limits_defined {cell}.

(** * Vocabulary of the properties *)

(** [f] lies in the inclusive range of [iv]. *)
Definition covers (iv : interval) (f : Z) : Prop :=
  start_frame iv <= f <= end_frame iv.

(** The gesture token as the specification words it: a leading ["G"] is
    dropped and the rest read as an integer, any other token is read as
    an integer as a whole. *)
Definition gesture_token_reads (tok : string) (gid : Z) : Prop :=
  (exists r, tok = String "G" r /\ PyStr.int r = Some gid)
  \/ ((forall r, tok <> String "G" r) /\ PyStr.int tok = Some gid).

(** The column map of the interface section of the specification:
    role, first position column, first velocity column, gripper column. *)
Definition spec_column_map : list (string * (nat * nat * nat)) :=
  [ ("master_left", (0, 12, 18));
    ("master_right", (19, 31, 37));
    ("slave_right", (38, 50, 56));
    ("slave_left", (57, 69, 75)) ]%nat.

(** A name without any dot. *)
Fixpoint dotless (s : string) : bool :=
  match s with
  | EmptyString => true
  | String c s' => negb (Ascii.eqb c ".") && dotless s'
  end.

(** The four role identifiers. *)
Definition roles : list string :=
  ["master_left"; "master_right"; "slave_left"; "slave_right"].

Section Vocabulary.

Variable cell : Type.

(** The bundle that the column map of the specification describes. *)
Definition projected (rows : list (list cell)) (p v g : nat) : bundle cell :=
  Bundle (map (fun row => take 3 (drop p row)) rows)
         (map (fun row => take 3 (drop v row)) rows)
         (omap (fun row => row !! g) rows)
         (time_axis (length rows)).

(** A bundle over [n] frames, with positions that are 3-vectors. *)
Definition bundle_ok (n : nat) (b : bundle cell) : Prop :=
  length (positions b) = n
  /\ Forall (fun r => length r = 3%nat) (positions b)
  /\ length (velocities b) = n
  /\ length (gripper b) = n
  /\ length (time b) = n.

(** [xs] is coordinate [k] of exactly the positions with index in the
    half-open range from [start] to [stop], in order. *)
Definition column_window (pos : list (list cell)) (start stop : Z)
    (k : nat) (xs : list cell) : Prop :=
  length xs = Z.to_nat (stop - start)
  /\ forall i row,
       start <= i < stop -> pos !! Z.to_nat i = Some row ->
       xs !! Z.to_nat (i - start) = row !! k.

Definition is_window (pos : list (list cell)) (start stop : Z)
    (t : trail cell) : Prop :=
  column_window pos start stop 0 (trail_x t)
  /\ column_window pos start stop 1 (trail_y t)
  /\ column_window pos start stop 2 (trail_z t).

(** A table of the fixed schema: two-dimensional, rows of one width,
    76 columns or more, one row at least. *)
Definition schema_table (a : ndarray cell) : Prop :=
  exists ncols rows,
    a = Arr2 ncols rows
    /\ Forall (fun r => length r = ncols) rows
    /\ rows <> []
    /\ (76 <= ncols)%nat.

(** The world [w] with another transcription file. *)
Definition with_trans (t : trans_source) (w : world cell) : world cell :=
  World (kin w) t (available_writers w) (ffmpeg_constructs w)
        (pillow_constructs w) (save_succeeds w) (mkdir_succeeds w).

(** The trace and the flag of a render on a table of the fixed schema. *)
Definition render_outcome (w : world cell) (group name : string)
  : traced bool :=
  match get_best_video_writer w name with
  | (None, _) => ([EvRender group; EvFigureOpen; EvFigureClose], Ok false)
  | (Some wr, corrected) =>
      ([EvRender group; EvFigureOpen; EvSave wr corrected; EvFigureClose],
       Ok (save_succeeds w wr corrected))
  end.

(** The trail [t] has [len] points and its last point is [p]. *)
Definition trail_reaches (t : trail cell) (len : nat) (p : list cell)
  : Prop :=
  length (trail_x t) = len
  /\ length (trail_y t) = len
  /\ length (trail_z t) = len
  /\ trail_x t !! (len - 1)%nat = p !! 0%nat
  /\ trail_y t !! (len - 1)%nat = p !! 1%nat
  /\ trail_z t !! (len - 1)%nat = p !! 2%nat.

End Vocabulary.

Arguments projected {cell}.
Arguments bundle_ok {cell}.
Arguments column_window {cell}.
Arguments is_window {cell}.
Arguments schema_table {cell}.
Arguments with_trans {cell}.
Arguments render_outcome {cell}.
Arguments trail_reaches {cell}.

(** ** The annotation format, written out *)

(** Whether every character of [s] satisfies [p]. *)
Fixpoint string_all (p : ascii -> bool) (s : string) : bool :=
  match s with
  | EmptyString => true
  | String c s' => p c && string_all p s'
  end.

Definition is_digit (c : ascii) : bool :=
  match PyStr.digit_val c with Some _ => true | None => false end.

Definition nonspace (c : ascii) : bool := negb (PyStr.isspace c).

(** The first character of [s] is there and is not white space. *)
Definition head_nonspace (s : string) : bool :=
  match s with
  | EmptyString => false
  | String c _ => nonspace c
  end.

(** Neither line feed nor carriage return. *)
Definition not_eol (c : ascii) : bool :=
  negb (Ascii.eqb c "010") && negb (Ascii.eqb c "013").

(** Whether [old] occurs in [s]. *)
Fixpoint occurs (old s : string) : bool :=
  String.prefix old s
  || match s with
     | EmptyString => false
     | String _ s' => occurs old s'
     end.

(** The three line endings of a text file. *)
Inductive newline : Type := LF | CRLF | CR.

Definition newline_text (nl : newline) : string :=
  match nl with
  | LF => String "010" ""
  | CRLF => String "013" (String "010" "")
  | CR => String "013" ""
  end.

(** The gesture token of id [gid], with or without the letter. *)
Definition format_gesture (with_g : bool) (gid : Z) : string :=
  if with_g then "G" +:+ pretty gid else pretty gid.

(** A line [<start> <end> <gesture>] with decimal numbers as [str]
    prints them. *)
Definition format_line (with_g : bool) (iv : interval) : string :=
  pretty (start_frame iv) +:+ " " +:+ pretty (end_frame iv) +:+ " "
    +:+ format_gesture with_g (gesture_id iv).

(** A line made of the two frame numbers and the gesture token, with
    any white space before, between and after them. *)
Definition laid_out (lead sep1 sep2 tail : string) (with_g : bool)
    (iv : interval) : string :=
  lead +:+ pretty (start_frame iv) +:+ sep1 +:+ pretty (end_frame iv)
    +:+ sep2 +:+ format_gesture with_g (gesture_id iv) +:+ tail.

(** The first character of [s], if any, is not a line feed. *)
Definition head_not_lf (s : string) : bool :=
  match s with
  | EmptyString => true
  | String c _ => negb (Ascii.eqb c "010")
  end.

(** A file of such lines, each closed by the line ending [nl]. *)
Fixpoint format_file (nl : newline) (with_g : bool) (rows : list interval)
  : string :=
  match rows with
  | [] => ""
  | iv :: rest =>
      format_line with_g iv +:+ newline_text nl +:+ format_file nl with_g rest
  end.

(** ** Sample data *)

(** A row of 76 cells, [base + column], and a table of three rows. *)
Definition sample_row (base : Z) : list Z :=
  map (fun c => base + Z.of_nat c) (seq 0 76).

Definition sample_table : list (list Z) :=
  [sample_row 0; sample_row 100; sample_row 200].

(** A table of two rows, loaded. *)
Definition two_row_table : list (list Z) := [sample_row 0; sample_row 100].

Definition two_row_self : generator Z :=
  Generator "B001" "Suturing" (Some (Arr2 76 two_row_table)) None 2.

(** A run on the three-row sample table where only the animated-image
    writer is there and the master encoding fails. *)
Definition sample_world : world Z :=
  World (KinArray (Arr2 76 sample_table)) TransMissing ["pillow"] true true
        (fun _ name =>
           negb (String.eqb name "out/Suturing_B001_master_combined.gif"))
        true.

(** A table of one row and 40 columns, enough for the master roles
    only, in a world with the video writer. *)
Definition narrow_table : list (list Z) := [take 40 (sample_row 0)].

Definition narrow_world : world Z :=
  World (KinArray (Arr2 40 narrow_table)) TransMissing ["ffmpeg"] true true
        (fun _ _ => true) true.

(** A file of one row, as [np.loadtxt] returns it. *)
Definition one_row_world : world Z :=
  World (KinArray (Arr1 (sample_row 0))) TransMissing ["ffmpeg"] true true
        (fun _ _ => true) true.

(** * Properties *)

(** ** Gesture lookup *)

Lemma gesture_scan_skip pre rest f :
  Forall (fun iv => ~ covers iv f) pre ->
  gesture_scan (pre ++ rest) f = gesture_scan rest f.
Proof.
  induction 1 as [|iv pre Hiv _ IH]; [reflexivity|].
  cbn [app gesture_scan]. unfold covers in Hiv.
  destruct (start_frame iv <=? f) eqn:E1;
    destruct (f <=? end_frame iv) eqn:E2; cbn [andb]; try exact IH.
  exfalso. apply Hiv. lia.
Qed.

Lemma gesture_scan_hit iv rest f :
  covers iv f -> gesture_scan (iv :: rest) f = gesture_label (gesture_id iv).
Proof.
  intros [H1 H2]. cbn [gesture_scan].
  destruct (Z.leb_spec (start_frame iv) f); [|lia].
  destruct (Z.leb_spec f (end_frame iv)); [|lia].
  reflexivity.
Qed.

Lemma gesture_scan_first pre iv post f :
  Forall (fun iv' => ~ covers iv' f) pre -> covers iv f ->
  gesture_scan (pre ++ iv :: post) f = gesture_label (gesture_id iv).
Proof.
  intros Hpre Hiv. rewrite gesture_scan_skip by exact Hpre.
  apply gesture_scan_hit, Hiv.
Qed.

Lemma gesture_scan_none rows f :
  Forall (fun iv => ~ covers iv f) rows -> gesture_scan rows f = "Transition".
Proof.
  intros H. rewrite <- (app_nil_r rows).
  rewrite gesture_scan_skip by exact H. reflexivity.
Qed.

Lemma store_transcriptions_nonempty iv rows :
  store_transcriptions (iv :: rows) = Some (iv :: rows).
Proof. reflexivity. Qed.

Lemma store_transcriptions_app pre iv post :
  store_transcriptions (pre ++ iv :: post) = Some (pre ++ iv :: post).
Proof. destruct pre; reflexivity. Qed.

Lemma load_transcriptions_stored (src : trans_source) :
  exists rows, load_transcriptions src = store_transcriptions rows.
Proof.
  destruct src as [| |content]; cbn [load_transcriptions].
  - exists []. reflexivity.
  - exists []. reflexivity.
  - eauto.
Qed.



(** The table has an entry exactly for the ids 1..6 and 8..15. *)
Lemma gestures_domain (gid : Z) :
  is_Some (gestures !! gid) <-> (1 <= gid <= 15 /\ gid <> 7).
Proof.
  split.
  - intros [d Hd]. apply elem_of_list_to_map_2 in Hd.
    repeat (apply elem_of_cons in Hd as [Hd|Hd];
            [inversion Hd; subst; lia|]).
    inversion Hd.
  - intros [Hr H7].
    assert (gid = 1 \/ gid = 2 \/ gid = 3 \/ gid = 4 \/ gid = 5 \/ gid = 6
            \/ gid = 8 \/ gid = 9 \/ gid = 10 \/ gid = 11 \/ gid = 12
            \/ gid = 13 \/ gid = 14 \/ gid = 15) as Hc by lia.
    repeat (destruct Hc as [->|Hc]; [vm_compute; eauto|]).
    subst. vm_compute. eauto.
Qed.

Lemma gesture_label_7 : gesture_label 7 = "Gesture 7".
Proof. vm_compute. reflexivity. Qed.




(** ** The transcription loader *)

(** The loop appends what each line yields on its own, in file order. *)
Lemma load_loop_omap (acc : list interval) (lines : list string) :
  load_loop acc lines = acc ++ omap parse_line lines.
Proof.
  revert acc. induction lines as [|line rest IH]; intros acc.
  - cbn. rewrite app_nil_r. reflexivity.
  - cbn [load_loop]. simpl omap. destruct (parse_line line) as [iv|].
    + rewrite IH. rewrite <- app_assoc. reflexivity.
    + apply IH.
Qed.

Lemma load_loop_app (l1 l2 : list string) :
  load_loop [] (l1 ++ l2) = load_loop [] l1 ++ load_loop [] l2.
Proof.
  rewrite !load_loop_omap. cbn [app]. apply omap_app.
Qed.

Lemma elem_of_load_loop (lines : list string) (iv : interval) :
  iv ∈ load_loop [] lines
  <-> exists line, line ∈ lines /\ parse_line line = Some iv.
Proof.
  rewrite load_loop_omap. cbn [app]. apply list_elem_of_omap.
Qed.

Lemma startswith_G (s : string) :
  PyStr.startswith "G" s = true <-> exists r, s = String "G" r.
Proof.
  unfold PyStr.startswith. destruct s as [|c r]; cbn [String.prefix].
  - split; [intros H; discriminate H|]. intros [r Hr]. discriminate Hr.
  - destruct (ascii_dec "G" c) as [<-|Hne].
    + split; [eauto|]. intros _. destruct r; reflexivity.
    + split; [intros H; discriminate H|]. intros [r' Hr]. congruence.
Qed.

Lemma parse_gesture_spec (tok : string) (gid : Z) :
  parse_gesture tok = Some gid <-> gesture_token_reads tok gid.
Proof.
  unfold parse_gesture, gesture_token_reads.
  destruct (PyStr.startswith "G" tok) eqn:E.
  - apply startswith_G in E as [r ->]. cbn [PyStr.tail]. split.
    + intros H. left. eauto.
    + intros [(r' & Hr & Hi)|[Hn _]].
      * congruence.
      * exfalso. apply (Hn r). reflexivity.
  - split.
    + intros H. right. split; [|exact H].
      intros r ->. rewrite (proj2 (startswith_G _)) in E by eauto.
      discriminate E.
    + intros [(r & -> & _)|[_ H]]; [|exact H].
      rewrite (proj2 (startswith_G _)) in E by eauto. discriminate E.
Qed.

(** A line yields an interval exactly when it has three tokens or more
    and the first three read as start, end and gesture id. *)
Lemma parse_line_spec (line : string) (iv : interval) :
  parse_line line = Some iv
  <-> exists p0 p1 p2 rest,
        PyStr.split (PyStr.strip line) = p0 :: p1 :: p2 :: rest
        /\ PyStr.int p0 = Some (start_frame iv)
        /\ PyStr.int p1 = Some (end_frame iv)
        /\ gesture_token_reads p2 (gesture_id iv).
Proof.
  unfold parse_line.
  destruct (String.eqb_spec (PyStr.strip line) "") as [E|_].
  - rewrite E. split; [discriminate|].
    intros (p0 & p1 & p2 & rest & H & _). discriminate H.
  - destruct (PyStr.split (PyStr.strip line)) as [|p0 [|p1 [|p2 rest]]];
      cbn [parse_parts].
    1-3: (split; [discriminate|];
          intros (? & ? & ? & ? & H & _); discriminate H).
    split.
    + intros H.
      destruct (PyStr.int p0) as [s|] eqn:E0; [|discriminate H].
      destruct (PyStr.int p1) as [e|] eqn:E1; [|discriminate H].
      destruct (parse_gesture p2) as [g|] eqn:E2; [|discriminate H].
      cbn in H. injection H as <-. cbn.
      exists p0, p1, p2, rest. repeat split; try assumption.
      apply parse_gesture_spec, E2.
    + intros (q0 & q1 & q2 & rest' & H & H0 & H1 & H2).
      injection H as <- <- <- <-.
      apply parse_gesture_spec in H2. rewrite H0, H1, H2. cbn.
      destruct iv; reflexivity.
Qed.

Lemma parse_line_blank (line : string) :
  PyStr.strip line = "" -> parse_line line = None.
Proof. unfold parse_line. intros ->. reflexivity. Qed.

Lemma parse_line_short (line : string) :
  (length (PyStr.split (PyStr.strip line)) < 3)%nat -> parse_line line = None.
Proof.
  unfold parse_line. intros H.
  destruct (String.eqb _ _); [reflexivity|].
  destruct (PyStr.split (PyStr.strip line)) as [|p0 [|p1 [|p2 rest]]];
    try reflexivity.
  cbn in H. lia.
Qed.






(** ** Manipulator extraction *)

Lemma omap_total_length {A B} (f : A -> option B) (l : list A) :
  Forall (fun x => is_Some (f x)) l -> length (omap f l) = length l.
Proof.
  induction 1 as [|x l [y Hy] _ IH]; [reflexivity|].
  simpl omap. rewrite Hy. cbn [length]. f_equal. exact IH.
Qed.

Lemma omap_total_lookup {A B} (f : A -> option B) (l : list A) (i : nat) :
  Forall (fun x => is_Some (f x)) l -> omap f l !! i = l !! i ≫= f.
Proof.
  intros H. revert i. induction H as [|x l [y Hy] _ IH]; intros i.
  - reflexivity.
  - simpl omap. rewrite Hy. destruct i as [|i].
    + cbn. symmetry. exact Hy.
    + exact (IH i).
Qed.

Lemma forallb_ltb (n : nat) (cols : list nat) :
  Forall (fun c => (c < n)%nat) cols ->
  forallb (fun c => Nat.ltb c n) cols = true.
Proof.
  induction 1 as [|c cols Hc _ IH]; [reflexivity|].
  cbn [forallb]. rewrite IH. apply Nat.ltb_lt in Hc. rewrite Hc. reflexivity.
Qed.

(** Three contiguous columns starting at [p]. *)
Lemma three_columns {A} (row : list A) (p : nat) :
  (p + 3 <= length row)%nat ->
  omap (fun c => row !! c) [p; S p; S (S p)] = take 3 (drop p row).
Proof.
  intros H.
  assert (length (drop p row) = (length row - p)%nat) as Hl
    by apply length_drop.
  destruct (drop p row) as [|x [|y [|z rest]]] eqn:E; cbn in Hl; try lia.
  assert (row !! p = Some x) as H0.
  { rewrite <- (Nat.add_0_r p), <- lookup_drop, E. reflexivity. }
  assert (row !! S p = Some y) as H1.
  { replace (S p) with (p + 1)%nat by lia.
    rewrite <- lookup_drop, E. reflexivity. }
  assert (row !! S (S p) = Some z) as H2.
  { replace (S (S p)) with (p + 2)%nat by lia.
    rewrite <- lookup_drop, E. reflexivity. }
  simpl omap. rewrite H0, H1, H2. reflexivity.
Qed.

Lemma manipulator_columns_spec (role : string) (p v g : nat) :
  (role, (p, v, g)) ∈ spec_column_map ->
  manipulator_columns role
  = Some ([p; S p; S (S p)], [v; S v; S (S v)], g).
Proof.
  intros H. unfold spec_column_map in H.
  repeat (apply elem_of_cons in H as [H|H];
          [injection H as -> -> -> ->; vm_compute; reflexivity|]).
  inversion H.
Qed.

Lemma spec_column_map_bound (role : string) (p v g : nat) :
  (role, (p, v, g)) ∈ spec_column_map ->
  (p + 3 <= 76 /\ v + 3 <= 76 /\ g < 76)%nat.
Proof.
  intros H. unfold spec_column_map in H.
  repeat (apply elem_of_cons in H as [H|H];
          [injection H as -> -> -> ->; lia|]).
  inversion H.
Qed.

Lemma spec_column_map_roles (role : string) :
  role ∈ roles <-> exists c, (role, c) ∈ spec_column_map.
Proof.
  unfold roles, spec_column_map. split.
  - intros H.
    repeat (apply elem_of_cons in H as [->|H];
            [eexists; repeat (first [apply list_elem_of_here
                                    |apply list_elem_of_further])|]).
    inversion H.
  - intros [c H].
    repeat (apply elem_of_cons in H as [H|H];
            [injection H as -> ->;
             repeat (first [apply list_elem_of_here
                           |apply list_elem_of_further])|]).
    inversion H.
Qed.

Section ExtractionFacts.

Variable cell : Type.

Implicit Types (self : generator cell) (rows : list (list cell)).

Lemma take_columns_three ncols rows (p : nat) :
  Forall (fun r => length r = ncols) rows ->
  (p + 3 <= ncols)%nat ->
  take_columns (Arr2 ncols rows) [p; S p; S (S p)]
  = Ok (map (fun row => take 3 (drop p row)) rows).
Proof.
  intros Hwf Hp. cbn [take_columns].
  rewrite forallb_ltb by (repeat constructor; lia).
  f_equal. apply map_ext_Forall.
  eapply Forall_impl; [exact Hwf|].
  intros row Hrow. cbv beta in *. apply three_columns. lia.
Qed.

Lemma extract_projected self ncols rows role (p v g : nat) :
  kinematics_data self = Some (Arr2 ncols rows) ->
  Forall (fun r => length r = ncols) rows ->
  (76 <= ncols)%nat ->
  (role, (p, v, g)) ∈ spec_column_map ->
  extract_manipulator_data self role = Ok (Some (projected rows p v g)).
Proof.
  intros Hk Hwf Hn Hrole.
  pose proof (spec_column_map_bound _ _ _ _ Hrole) as (Hp & Hv & Hg).
  unfold extract_manipulator_data.
  rewrite Hk, (manipulator_columns_spec _ _ _ _ Hrole).
  rewrite !take_columns_three by (assumption || lia).
  cbn [rbind take_column array_len].
  assert (Nat.ltb g ncols = true) as -> by (apply Nat.ltb_lt; lia).
  reflexivity.
Qed.

Lemma gripper_column rows ncols (g : nat) :
  Forall (fun r => length r = ncols) rows -> (g < ncols)%nat ->
  Forall (fun row => is_Some (row !! g)) rows.
Proof.
  intros Hwf Hg. eapply Forall_impl; [exact Hwf|].
  intros row Hrow. cbv beta in *. apply lookup_lt_is_Some. lia.
Qed.

Lemma time_axis_lookup (n i : nat) :
  (i < n)%nat ->
  time_axis n !! i = Some (inject_Z (Z.of_nat i) / inject_Z fps)%Q.
Proof.
  intros H. unfold time_axis.
  rewrite list_lookup_fmap, lookup_seq_lt by exact H. reflexivity.
Qed.

Lemma time_axis_length (n : nat) : length (time_axis n) = n.
Proof. unfold time_axis. rewrite length_map, length_seq. reflexivity. Qed.

Lemma projected_ok ncols rows (p v g : nat) :
  Forall (fun r => length r = ncols) rows ->
  (p + 3 <= ncols)%nat -> (g < ncols)%nat ->
  bundle_ok (length rows) (projected rows p v g).
Proof.
  intros Hwf Hp Hg. unfold bundle_ok.
  cbn [projected positions velocities gripper time].
  rewrite !length_map, time_axis_length.
  rewrite omap_total_length
    by (apply (gripper_column rows ncols); assumption).
  repeat split.
  apply Forall_fmap. eapply Forall_impl; [exact Hwf|].
  intros row Hrow. unfold compose. cbv beta in *.
  rewrite length_take, length_drop. lia.
Qed.

(** The bundles of a table of the fixed schema range over its rows. *)
Lemma extract_bundle_ok self ncols rows (role : string) :
  kinematics_data self = Some (Arr2 ncols rows) ->
  Forall (fun r => length r = ncols) rows ->
  (76 <= ncols)%nat ->
  role ∈ roles ->
  exists b,
    extract_manipulator_data self role = Ok (Some b)
    /\ bundle_ok (length rows) b.
Proof.
  intros Hk Hwf Hn Hrole.
  apply spec_column_map_roles in Hrole as [[[p v] g] Hrole].
  pose proof (spec_column_map_bound _ _ _ _ Hrole) as (Hp & _ & Hg).
  exists (projected rows p v g). split.
  - eapply extract_projected; eassumption.
  - apply (projected_ok ncols); (assumption || lia).
Qed.

End ExtractionFacts.

Section ExtractionTheorems.

Variable cell : Type.

Implicit Types (self : generator cell) (rows : list (list cell)).

Lemma omap_total_Forall2 {A B} (f : A -> option B) (l : list A) :
  Forall (fun x => is_Some (f x)) l ->
  Forall2 (fun x y => f x = Some y) l (omap f l).
Proof.
  induction 1 as [|x l [y Hy] _ IH]; [constructor|].
  simpl omap. rewrite Hy. constructor; assumption.
Qed.

Lemma manipulator_columns_unknown (role : string) :
  role ∉ roles -> manipulator_columns role = None.
Proof.
  intros H. unfold manipulator_columns.
  destruct (String.eqb_spec role "master_left") as [->|_];
    [exfalso; apply H; unfold roles; repeat constructor|].
  destruct (String.eqb_spec role "master_right") as [->|_];
    [exfalso; apply H; unfold roles; repeat constructor|].
  destruct (String.eqb_spec role "slave_right") as [->|_];
    [exfalso; apply H; unfold roles; repeat constructor|].
  destruct (String.eqb_spec role "slave_left") as [->|_];
    [exfalso; apply H; unfold roles; repeat constructor|].
  reflexivity.
Qed.

Lemma extract_no_table self role :
  kinematics_data self = None -> extract_manipulator_data self role = Ok None.
Proof. intros H. unfold extract_manipulator_data. rewrite H. reflexivity. Qed.

Lemma extract_unknown_role self role :
  role ∉ roles -> extract_manipulator_data self role = Ok None.
Proof.
  intros H. unfold extract_manipulator_data.
  destruct (kinematics_data self); [|reflexivity].
  rewrite manipulator_columns_unknown by exact H. reflexivity.
Qed.

(** C6. On a table of the fixed schema (rows of one width, 76 columns
    or more) extraction is the column projection of the interface
    table: for each role the positions are the three columns from the
    role's position offset, the velocities the three columns from its
    velocity offset, the gripper sequence its gripper column; for
    master-left the positions are columns 0..2 of every row unchanged.
    With no table, or with a role identifier outside the four, the
    result is the returned [None], not an exception. *)
Theorem C6_fixed_column_projection self ncols rows :
  kinematics_data self = Some (Arr2 ncols rows) ->
  Forall (fun r => length r = ncols) rows ->
  (76 <= ncols)%nat ->
  (forall role p v g,
     (role, (p, v, g)) ∈ spec_column_map ->
     exists b,
       extract_manipulator_data self role = Ok (Some b)
       /\ positions b = map (fun row => take 3 (drop p row)) rows
       /\ velocities b = map (fun row => take 3 (drop v row)) rows
       /\ Forall2 (fun row x => row !! g = Some x) rows (gripper b))
  /\ (exists b,
        extract_manipulator_data self "master_left" = Ok (Some b)
        /\ positions b = map (take 3) rows
        /\ Forall2 (fun row p => row = p ++ drop 3 row) rows (positions b))
  /\ (forall self' role,
        kinematics_data self' = None ->
        extract_manipulator_data self' role = Ok None)
  /\ (forall self' role,
        role ∉ roles -> extract_manipulator_data self' role = Ok None).
Proof.
  intros Hk Hwf Hn. split; [|split; [|split]].
  - intros role p v g Hrole.
    pose proof (spec_column_map_bound _ _ _ _ Hrole) as (_ & _ & Hg).
    exists (projected rows p v g). split; [|split; [|split]].
    + eapply extract_projected; eassumption.
    + reflexivity.
    + reflexivity.
    + cbn [projected gripper]. apply omap_total_Forall2.
      apply (gripper_column _ rows ncols); [exact Hwf|lia].
  - exists (projected rows 0 12 18). split; [|split].
    + eapply extract_projected; try eassumption.
      apply list_elem_of_here.
    + reflexivity.
    + cbn [projected positions]. apply Forall2_fmap_r, Forall_Forall2_diag.
      apply Forall_forall. intros row _. cbn [drop].
      symmetry. apply take_drop.
  - intros self' role. apply extract_no_table.
  - intros self' role. apply extract_unknown_role.
Qed.

(** C9. After a table of the fixed schema has been loaded, the frame
    count is its number of rows, and for each of the four roles the
    extracted bundle has four sequences of that length, with
    [time[i] = i / fps]. *)
Theorem C9_bundle_lengths (trans : trans_source) (self0 : generator cell)
    ncols rows :
  Forall (fun r => length r = ncols) rows ->
  rows <> [] ->
  (76 <= ncols)%nat ->
  let self := snd (load_data (KinArray (Arr2 ncols rows)) trans self0) in
  frame_count self = length rows
  /\ forall role,
       role ∈ roles ->
       exists b,
         extract_manipulator_data self role = Ok (Some b)
         /\ length (positions b) = length rows
         /\ length (velocities b) = length rows
         /\ length (gripper b) = length rows
         /\ length (time b) = length rows
         /\ forall i : nat,
              (i < length rows)%nat ->
              time b !! i = Some (inject_Z (Z.of_nat i) / inject_Z fps)%Q.
Proof.
  intros Hwf _ Hn. cbn [load_data array_len snd]. split; [reflexivity|].
  intros role Hrole.
  apply spec_column_map_roles in Hrole as [[[p v] g] Hrole].
  pose proof (spec_column_map_bound _ _ _ _ Hrole) as (_ & _ & Hg).
  exists (projected rows p v g). split.
  { eapply extract_projected; try eassumption. reflexivity. }
  cbn [projected positions velocities gripper time].
  rewrite !length_map, time_axis_length.
  rewrite omap_total_length
    by (apply (gripper_column _ rows ncols); [exact Hwf|lia]).
  repeat split. intros i Hi. apply time_axis_lookup, Hi.
Qed.

End ExtractionTheorems.

Lemma sample_table_wf : Forall (fun r => length r = 76%nat) sample_table.
Proof. repeat constructor. Qed.

Lemma C6_fixed_column_projection_witness :
  exists b,
    extract_manipulator_data
      (Generator "B001" "Suturing" (Some (Arr2 76 sample_table)) None 3)
      "slave_left"
    = Ok (Some b)
    /\ positions b = [[57; 58; 59]; [157; 158; 159]; [257; 258; 259]]
    /\ velocities b = [[69; 70; 71]; [169; 170; 171]; [269; 270; 271]].
Proof.
  destruct (C6_fixed_column_projection Z
              (Generator "B001" "Suturing" (Some (Arr2 76 sample_table))
                         None 3)
              76 sample_table eq_refl sample_table_wf (le_n 76))
    as (H & _).
  destruct (H "slave_left" 57 69 75)%nat as (b & Hb & Hp & Hv & _).
  - unfold spec_column_map. do 3 apply list_elem_of_further.
    apply list_elem_of_here.
  - exists b. split; [exact Hb|]. split.
    + rewrite Hp. vm_compute. reflexivity.
    + rewrite Hv. vm_compute. reflexivity.
Defined.

Lemma C9_bundle_lengths_witness :
  exists b,
    extract_manipulator_data
      (snd (load_data (KinArray (Arr2 76 sample_table)) TransMissing
              (init "B001" "Suturing")))
      "master_right"
    = Ok (Some b)
    /\ length (positions b) = 3%nat
    /\ length (time b) = 3%nat
    /\ time b !! 2%nat = Some (2 / 30)%Q.
Proof.
  destruct (C9_bundle_lengths Z TransMissing (init "B001" "Suturing")
              76 sample_table sample_table_wf) as (_ & H).
  - discriminate.
  - lia.
  - destruct (H "master_right") as (b & Hb & Hp & _ & _ & Ht & Hi).
    + unfold roles. apply list_elem_of_further, list_elem_of_here.
    + exists b. split; [exact Hb|]. split; [exact Hp|]. split; [exact Ht|].
      apply (Hi 2%nat). vm_compute. lia.
Defined.

(** ** The per-frame update *)

Lemma py_index_ok {A} (a : list A) (f : Z) :
  0 <= f < Z.of_nat (length a) ->
  exists x, py_index a f = Ok x /\ a !! Z.to_nat f = Some x.
Proof.
  intros [H0 H1]. unfold py_index.
  destruct (Z.ltb_spec f 0); [lia|].
  destruct (Z.leb_spec 0 f); [|lia].
  destruct (Z.ltb_spec f (Z.of_nat (length a))); [|lia].
  cbn [andb].
  destruct (lookup_lt_is_Some_2 a (Z.to_nat f)) as [x Hx]; [lia|].
  rewrite Hx. eauto.
Qed.

Lemma py_slice_inside {A} (a : list A) (s e : Z) :
  0 <= s <= e -> e <= Z.of_nat (length a) ->
  py_slice a s e = take (Z.to_nat (e - s)) (drop (Z.to_nat s) a).
Proof.
  intros Hs He. unfold py_slice, clip_bound.
  destruct (Z.ltb_spec s 0); [lia|].
  destruct (Z.ltb_spec e 0); [lia|].
  rewrite !Z.min_l by lia. reflexivity.
Qed.

Lemma py_slice_length {A} (a : list A) (s e : Z) :
  0 <= s <= e -> e <= Z.of_nat (length a) ->
  length (py_slice a s e) = Z.to_nat (e - s).
Proof.
  intros Hs He. rewrite py_slice_inside by assumption.
  rewrite length_take, length_drop. lia.
Qed.

Lemma py_slice_lookup {A} (a : list A) (s e i : Z) :
  0 <= s <= e -> e <= Z.of_nat (length a) -> s <= i < e ->
  py_slice a s e !! Z.to_nat (i - s) = a !! Z.to_nat i.
Proof.
  intros Hs He Hi. rewrite py_slice_inside by assumption.
  rewrite lookup_take_lt by lia. rewrite lookup_drop.
  f_equal. lia.
Qed.

Section AnimationFacts.

Variable cell : Type.
Variable norm : list cell -> cell.

Lemma slice_column_window (pos : list (list cell)) (s e : Z) (k : nat) :
  Forall (fun r => length r = 3%nat) pos -> (k < 3)%nat ->
  0 <= s <= e -> e <= Z.of_nat (length pos) ->
  column_window pos s e k (slice_column pos s e k).
Proof.
  intros Hrows Hk Hs He. unfold column_window, slice_column.
  assert (Forall (fun row : list cell => is_Some (row !! k))
                 (py_slice pos s e)) as Hall.
  { rewrite py_slice_inside by assumption.
    apply Forall_take, Forall_drop.
    eapply Forall_impl; [exact Hrows|].
    intros row Hrow. cbv beta in *. apply lookup_lt_is_Some. lia. }
  split.
  - rewrite omap_total_length by exact Hall.
    apply py_slice_length; assumption.
  - intros i row Hi Hrow.
    rewrite omap_total_lookup by exact Hall.
    rewrite py_slice_lookup by assumption.
    rewrite Hrow. reflexivity.
Qed.

Lemma trail_update_window (pos : list (list cell)) (f : Z) :
  Forall (fun r => length r = 3%nat) pos ->
  0 <= f < Z.of_nat (length pos) ->
  exists t,
    trail_update pos f = Some t
    /\ is_window pos (Z.max 0 (f - 150)) (f + 1) t.
Proof.
  intros Hrows Hf. unfold trail_update, trail_bounds, trail_length.
  destruct (Z.ltb_spec (Z.max 0 (f - 150)) (f + 1)); [|lia].
  eexists. split; [reflexivity|].
  unfold is_window. cbn [trail_x trail_y trail_z].
  repeat split; apply slice_column_window; try assumption; lia.
Qed.

Lemma trail_update_empty (pos : list (list cell)) (f : Z) :
  snd (trail_bounds f) <= fst (trail_bounds f) -> trail_update pos f = None.
Proof.
  unfold trail_update. destruct (trail_bounds f) as [s e]. cbn [fst snd].
  intros H. destruct (Z.ltb_spec s e); [lia|reflexivity].
Qed.

Lemma point_at_ok (pos : list (list cell)) (f : Z) :
  Forall (fun r => length r = 3%nat) pos ->
  0 <= f < Z.of_nat (length pos) ->
  exists p, point_at pos f = Ok p /\ pos !! Z.to_nat f = Some p.
Proof.
  intros Hrows Hf. unfold point_at.
  destruct (py_index_ok pos f Hf) as (row & -> & Hrow). cbn [rbind].
  assert (length row = 3%nat) as Hl.
  { rewrite Forall_forall in Hrows. apply Hrows.
    eapply list_elem_of_lookup_2, Hrow. }
  destruct row as [|x [|y [|z [|? ?]]]]; try discriminate Hl.
  exists [x; y; z]. split; [reflexivity|exact Hrow].
Qed.

(** On bundles over [n] frames, [animate] draws every frame below [n]. *)
Lemma animate_ok (transcriptions : option (list interval))
    (left_data right_data : bundle cell) (n : nat) (f : Z) :
  bundle_ok n left_data -> bundle_ok n right_data -> 0 <= f < Z.of_nat n ->
  exists fr,
    animate norm transcriptions left_data right_data f = Ok fr
    /\ left_trail fr = trail_update (positions left_data) f
    /\ right_trail fr = trail_update (positions right_data) f
    /\ frame_shown (time_text fr) = f
    /\ last_frame_shown (time_text fr) = Z.of_nat n - 1
    /\ progress (time_text fr)
       = (inject_Z f / inject_Z (Z.of_nat n) * 100)%Q
    /\ gesture_text fr = get_current_gesture transcriptions f.
Proof.
  intros (Hlp & Hlr & Hlv & Hlg & Hlt) (Hrp & Hrr & Hrv & Hrg & _) Hf.
  unfold animate.
  destruct (point_at_ok (positions left_data) f Hlr) as (lc & -> & _);
    [lia|].
  destruct (point_at_ok (positions right_data) f Hrr) as (rc & -> & _);
    [lia|].
  destruct (py_index_ok (time left_data) f) as (t & -> & _); [lia|].
  destruct (py_index_ok (velocities left_data) f) as (lv & -> & _); [lia|].
  destruct (py_index_ok (velocities right_data) f) as (rv & -> & _); [lia|].
  destruct (py_index_ok (gripper left_data) f) as (lg & -> & _); [lia|].
  destruct (py_index_ok (gripper right_data) f) as (rg & -> & _); [lia|].
  cbn [rbind]. unfold progress_percent. rewrite Hlp.
  destruct (Nat.eqb_spec n 0) as [->|_]; [lia|].
  cbn [rbind]. eexists. split; [reflexivity|].
  cbn. repeat split; reflexivity.
Qed.

Lemma progress_below_100 (n : nat) (f : Z) :
  0 <= f < Z.of_nat n ->
  (0 <= inject_Z f / inject_Z (Z.of_nat n) * 100
   /\ inject_Z f / inject_Z (Z.of_nat n) * 100 < 100)%Q.
Proof.
  intros Hf.
  destruct (Z.of_nat n) as [|p|p] eqn:E; try lia.
  unfold Qle, Qlt, Qdiv, Qmult, Qinv, inject_Z. cbn.
  split; nia.
Qed.

End AnimationFacts.

Section AnimationTheorems.

Variable cell : Type.
Variable norm : list cell -> cell.

Implicit Types (self : generator cell) (rows : list (list cell)).

(** The two trails of a frame, on bundles over [n] frames. *)
Lemma animate_trails (transcriptions : option (list interval))
    (left_data right_data : bundle cell) (n : nat) (f : Z) :
  bundle_ok n left_data -> bundle_ok n right_data -> 0 <= f < Z.of_nat n ->
  exists fr tl tr,
    animate norm transcriptions left_data right_data f = Ok fr
    /\ left_trail fr = Some tl
    /\ right_trail fr = Some tr
    /\ is_window (positions left_data) (Z.max 0 (f - 150)) (f + 1) tl
    /\ is_window (positions right_data) (Z.max 0 (f - 150)) (f + 1) tr.
Proof.
  intros Hl Hr Hf.
  destruct (animate_ok cell norm transcriptions _ _ n f Hl Hr Hf)
    as (fr & Hfr & Hlt & Hrt & _).
  destruct Hl as (Hlp & Hlr & _). destruct Hr as (Hrp & Hrr & _).
  destruct (trail_update_window cell (positions left_data) f Hlr)
    as (tl & Htl & Hwl); [lia|].
  destruct (trail_update_window cell (positions right_data) f Hrr)
    as (tr & Htr & Hwr); [lia|].
  exists fr, tl, tr. rewrite Hlt, Hrt. auto.
Qed.

(** C4. On a table of the fixed schema, for every frame
    [0 <= f < frame_count] and every pair of roles, the update of each
    manipulator's trail is made, and its three coordinate sequences are
    exactly the extracted positions with index in the half-open range
    [max(0, f - 150), f + 1), in order; no frame of that range, the first
    and the last included, makes [animate] raise.  When the window is
    empty ([trail_end <= trail_start]) the trail is left as it is:
    nothing is drawn and nothing fails. *)
Theorem C4_trail_window self ncols rows (left_role right_role : string)
    (f : Z) :
  kinematics_data self = Some (Arr2 ncols rows) ->
  Forall (fun r => length r = ncols) rows ->
  (76 <= ncols)%nat ->
  left_role ∈ roles -> right_role ∈ roles ->
  0 <= f < Z.of_nat (length rows) ->
  trail_bounds f = (Z.max 0 (f - 150), f + 1)
  /\ (exists left_data right_data fr tl tr,
        extract_manipulator_data self left_role = Ok (Some left_data)
        /\ extract_manipulator_data self right_role = Ok (Some right_data)
        /\ animate norm (transcriptions_data self) left_data right_data f
           = Ok fr
        /\ left_trail fr = Some tl
        /\ right_trail fr = Some tr
        /\ is_window (positions left_data) (Z.max 0 (f - 150)) (f + 1) tl
        /\ is_window (positions right_data) (Z.max 0 (f - 150)) (f + 1) tr)
  /\ (forall (pos : list (list cell)) (f' : Z),
        snd (trail_bounds f') <= fst (trail_bounds f') ->
        trail_update pos f' = None).
Proof.
  intros Hk Hwf Hn Hlr Hrr Hf. split; [reflexivity|]. split.
  - destruct (extract_bundle_ok cell self ncols rows left_role Hk Hwf Hn Hlr)
      as (left_data & El & Hl).
    destruct (extract_bundle_ok cell self ncols rows right_role Hk Hwf Hn Hrr)
      as (right_data & Er & Hr).
    destruct (animate_trails (transcriptions_data self) left_data right_data
                (length rows) f Hl Hr Hf)
      as (fr & tl & tr & H).
    exists left_data, right_data, fr, tl, tr. auto.
  - apply trail_update_empty.
Qed.


End AnimationTheorems.

Lemma two_row_table_wf : Forall (fun r => length r = 76%nat) two_row_table.
Proof. repeat constructor. Qed.

Lemma in_roles_master_left : "master_left" ∈ roles.
Proof. unfold roles. apply list_elem_of_here. Qed.

Lemma in_roles_master_right : "master_right" ∈ roles.
Proof. unfold roles. apply list_elem_of_further, list_elem_of_here. Qed.

Lemma C4_trail_window_witness :
  exists left_data right_data fr,
    extract_manipulator_data two_row_self "master_left" = Ok (Some left_data)
    /\ extract_manipulator_data two_row_self "master_right"
       = Ok (Some right_data)
    /\ animate (fun _ => 0) None left_data right_data 1 = Ok fr
    /\ left_trail fr = Some (Trail [0; 100] [1; 101] [2; 102])
    /\ right_trail fr = Some (Trail [19; 119] [20; 120] [21; 121]).
Proof.
  destruct (C4_trail_window Z (fun _ => 0) two_row_self 76 two_row_table
              "master_left" "master_right" 1 eq_refl two_row_table_wf
              (le_n 76) in_roles_master_left in_roles_master_right)
    as (_ & (l & r & fr & tl & tr & El & Er & Hfr & _) & _).
  - vm_compute. split; [discriminate|reflexivity].
  - exists l, r, fr. split; [exact El|]. split; [exact Er|].
    split; [exact Hfr|].
    vm_compute in El, Er. injection El as <-. injection Er as <-.
    vm_compute in Hfr. injection Hfr as <-. split; reflexivity.
Defined.



(** ** Writer selection and rendering *)

(** On a name whose only dot is the one of its ".mp4" extension,
    [replace] is the substitution of the extension. *)
Lemma replace_extension_dotless (stem : string) :
  dotless stem = true ->
  PyStr.replace ".mp4" ".gif" (stem +:+ ".mp4") = stem +:+ ".gif".
Proof.
  intros H. unfold PyStr.replace. cbn [String.eqb].
  induction stem as [|c stem IH]; [vm_compute; reflexivity|].
  cbn [dotless] in H. apply andb_true_iff in H as [Hc Hd].
  change (String c stem +:+ ".mp4") with (String c (stem +:+ ".mp4")).
  change (String c stem +:+ ".gif") with (String c (stem +:+ ".gif")).
  cbn [PyStr.replace_go String.prefix].
  destruct (ascii_dec "." c) as [<-|_]; [discriminate Hc|].
  f_equal. apply IH, Hd.
Qed.

Section RenderFacts.

Variable cell : Type.
Variable norm : list cell -> cell.

Implicit Types (w : world cell) (self : generator cell).

Lemma writer_primary w name :
  "ffmpeg" ∈ available_writers w -> ffmpeg_constructs w = true ->
  get_best_video_writer w name = (Some FFMpegWriter, name).
Proof.
  intros Hin Hc. unfold get_best_video_writer.
  rewrite bool_decide_eq_true_2 by exact Hin. rewrite Hc. reflexivity.
Qed.

Lemma writer_fallback w name :
  "ffmpeg" ∉ available_writers w \/ ffmpeg_constructs w = false ->
  "pillow" ∈ available_writers w -> pillow_constructs w = true ->
  get_best_video_writer w name
  = (Some PillowWriter, PyStr.replace ".mp4" ".gif" name).
Proof.
  intros Hno Hin Hc. unfold get_best_video_writer.
  assert (bool_decide ("ffmpeg" ∈ available_writers w)
          && ffmpeg_constructs w = false) as ->.
  { destruct Hno as [Hno| ->]; [|apply andb_false_r].
    rewrite bool_decide_eq_false_2 by exact Hno. reflexivity. }
  rewrite bool_decide_eq_true_2 by exact Hin. rewrite Hc. reflexivity.
Qed.

Lemma writer_none w name :
  "ffmpeg" ∉ available_writers w \/ ffmpeg_constructs w = false ->
  "pillow" ∉ available_writers w \/ pillow_constructs w = false ->
  get_best_video_writer w name = (None, name).
Proof.
  intros Hf Hp. unfold get_best_video_writer.
  assert (bool_decide ("ffmpeg" ∈ available_writers w)
          && ffmpeg_constructs w = false) as ->.
  { destruct Hf as [Hf| ->]; [|apply andb_false_r].
    rewrite bool_decide_eq_false_2 by exact Hf. reflexivity. }
  assert (bool_decide ("pillow" ∈ available_writers w)
          && pillow_constructs w = false) as ->.
  { destruct Hp as [Hp| ->]; [|apply andb_false_r].
    rewrite bool_decide_eq_false_2 by exact Hp. reflexivity. }
  reflexivity.
Qed.

Lemma save_animation_ok w self (left_data right_data : bundle cell)
    (n : nat) wr name :
  bundle_ok n left_data -> bundle_ok n right_data ->
  save_animation norm w self left_data right_data wr name
  = save_succeeds w wr name.
Proof.
  intros Hl Hr. unfold save_animation.
  replace (forallb _ _) with true; [reflexivity|].
  symmetry. apply forallb_forall. intros f Hf. apply in_seq in Hf.
  destruct (animate_ok cell norm (transcriptions_data self) _ _ n
              (Z.of_nat f) Hl Hr) as (fr & -> & _).
  - destruct Hl as [Hl _]. lia.
  - reflexivity.
Qed.

Lemma render_on_schema_table w self a (group name : string) :
  kinematics_data self = Some a -> schema_table a ->
  is_Some (task_configs !! task self) ->
  group = "master" \/ group = "slave" ->
  create_combined_trajectory_video norm w self group name
  = render_outcome w group name.
Proof.
  intros Hk (ncols & rows & -> & Hwf & Hne & Hn) [cfg Hcfg] Hg.
  assert (exists lr rr view pl vl gl pr vr gr,
            group_roles group = Some (lr, rr, view)
            /\ (lr, (pl, vl, gl)) ∈ spec_column_map
            /\ (rr, (pr, vr, gr)) ∈ spec_column_map)
    as (lr & rr & view & pl & vl & gl & pr & vr & gr & Hroles & Hl & Hr).
  { destruct Hg as [-> | ->].
    - exists "master_left", "master_right", master_view,
        0%nat, 12%nat, 18%nat, 19%nat, 31%nat, 37%nat.
      split; [reflexivity|]. unfold spec_column_map.
      split; [apply list_elem_of_here|].
      apply list_elem_of_further, list_elem_of_here.
    - exists "slave_left", "slave_right", slave_view,
        57%nat, 69%nat, 75%nat, 38%nat, 50%nat, 56%nat.
      split; [reflexivity|]. unfold spec_column_map.
      split; [do 3 apply list_elem_of_further; apply list_elem_of_here|].
      do 2 apply list_elem_of_further. apply list_elem_of_here. }
  pose proof (spec_column_map_bound _ _ _ _ Hl) as (Hpl & _ & Hgl).
  pose proof (spec_column_map_bound _ _ _ _ Hr) as (Hpr & _ & Hgr).
  assert (bundle_ok (length rows) (projected rows pl vl gl)) as Hlok
    by (apply (projected_ok cell ncols); (assumption || lia)).
  assert (bundle_ok (length rows) (projected rows pr vr gr)) as Hrok
    by (apply (projected_ok cell ncols); (assumption || lia)).
  assert (0 <= 0 < Z.of_nat (length rows)) as H0
    by (destruct rows; [congruence|cbn [length]; lia]).
  unfold create_combined_trajectory_video, render_outcome.
  rewrite Hroles. cbn [tbind lift emit tret].
  rewrite (extract_projected cell self ncols rows lr pl vl gl Hk Hwf Hn Hl).
  cbn [tbind lift emit tret].
  rewrite (extract_projected cell self ncols rows rr pr vr gr Hk Hwf Hn Hr).
  cbn [tbind lift emit tret].
  unfold task_config_of. rewrite Hcfg. cbn [tbind lift emit tret].
  assert (axis_limits_defined
            (positions (projected rows pl vl gl)
             ++ positions (projected rows pr vr gr)) = Ok tt) as ->.
  { cbn [projected positions]. destruct rows; [congruence|reflexivity]. }
  destruct (point_at_ok cell (positions (projected rows pl vl gl)) 0)
    as (p0 & -> & _);
    [apply Hlok|destruct Hlok as [-> _]; exact H0|].
  destruct (point_at_ok cell (positions (projected rows pr vr gr)) 0)
    as (q0 & -> & _);
    [apply Hrok|destruct Hrok as [-> _]; exact H0|].
  destruct (get_best_video_writer w name) as [[wr|] corrected].
  - cbn [tbind lift emit tret].
    rewrite (save_animation_ok w self _ _ (length rows) wr corrected
               Hlok Hrok).
    reflexivity.
  - reflexivity.
Qed.

End RenderFacts.

Section OrchestratorFacts.

Variable cell : Type.
Variable norm : list cell -> cell.

Implicit Types (w : world cell) (self : generator cell).

(** Whether [animate] raises does not depend on the transcriptions. *)
Lemma animate_is_ok_trans (t t' : option (list interval))
    (left_data right_data : bundle cell) (f : Z) :
  is_ok (animate norm t left_data right_data f)
  = is_ok (animate norm t' left_data right_data f).
Proof.
  unfold animate.
  repeat match goal with
         | |- context [rbind ?r _] =>
             destruct r; cbn [rbind is_ok]; try reflexivity
         end.
Qed.

Lemma save_animation_trans w self self' (t : trans_source)
    (left_data right_data : bundle cell) wr name :
  save_animation norm (with_trans t w) self left_data right_data wr name
  = save_animation norm w self' left_data right_data wr name.
Proof.
  unfold save_animation. cbn [with_trans save_succeeds]. f_equal.
  induction (seq 0 (length (positions left_data))) as [|f l IH];
    [reflexivity|].
  cbn [forallb]. rewrite IH.
  rewrite (animate_is_ok_trans (transcriptions_data self)
             (transcriptions_data self')).
  reflexivity.
Qed.

Lemma extract_same_table self self' role :
  kinematics_data self = kinematics_data self' ->
  extract_manipulator_data self role = extract_manipulator_data self' role.
Proof. intros H. unfold extract_manipulator_data. rewrite H. reflexivity. Qed.

(** A render depends on the object through the table and the task
    only, and not on the transcription file. *)
Lemma render_trans w self self' (t : trans_source) (group name : string) :
  kinematics_data self = kinematics_data self' ->
  task self = task self' ->
  create_combined_trajectory_video norm (with_trans t w) self group name
  = create_combined_trajectory_video norm w self' group name.
Proof.
  intros Hk Ht. unfold create_combined_trajectory_video.
  cbn [tbind emit lift tret].
  destruct (group_roles group) as [[[lr rr] view]|]; [|reflexivity].
  rewrite !(extract_same_table self self') by exact Hk. rewrite Ht.
  destruct (extract_manipulator_data self' lr) as [ld|e]; [|reflexivity].
  destruct (extract_manipulator_data self' rr) as [rd|e]; [|reflexivity].
  destruct (task_config_of (task self')) as [cfg|e]; [|reflexivity].
  destruct ld as [ld|]; [|reflexivity].
  destruct rd as [rd|]; [|reflexivity].
  destruct (axis_limits_defined (positions ld ++ positions rd));
    [|reflexivity].
  destruct (point_at (positions ld) 0); [|reflexivity].
  destruct (point_at (positions rd) 0); [|reflexivity].
  change (get_best_video_writer (with_trans t w) name)
    with (get_best_video_writer w name).
  destruct (get_best_video_writer w name) as [[wr|] corrected];
    [|reflexivity].
  rewrite (save_animation_trans w self self'). reflexivity.
Qed.

Lemma load_data_flag (k : kin_source cell) (t t' : trans_source) self :
  fst (load_data k t self) = fst (load_data k t' self).
Proof.
  unfold load_data. destruct k as [| |a]; try reflexivity.
  destruct (array_len a); reflexivity.
Qed.

Lemma load_data_table (k : kin_source cell) (t t' : trans_source) self :
  kinematics_data (snd (load_data k t self))
  = kinematics_data (snd (load_data k t' self))
  /\ task (snd (load_data k t self)) = task (snd (load_data k t' self))
  /\ subject_id (snd (load_data k t self))
     = subject_id (snd (load_data k t' self)).
Proof.
  unfold load_data. destruct k as [| |a]; try (repeat split; reflexivity).
  destruct (array_len a); repeat split; reflexivity.
Qed.

Lemma create_all_videos_trans w self (t : trans_source) (dir : string) :
  create_all_videos norm (with_trans t w) self dir
  = create_all_videos norm w self dir.
Proof.
  unfold create_all_videos. cbn [with_trans kin trans mkdir_succeeds].
  pose proof (load_data_flag (kin w) t (trans w) self) as Hflag.
  pose proof (load_data_table (kin w) t (trans w) self) as (Hk & Ht & Hs).
  destruct (load_data (kin w) t self) as [ok self1].
  destruct (load_data (kin w) (trans w) self) as [ok' self2].
  cbn [fst snd] in *. subst ok'.
  destruct ok; [|reflexivity]. cbn [negb].
  destruct (mkdir_succeeds w); [|reflexivity].
  cbn [tbind lift].
  unfold output_file. rewrite Ht, Hs.
  rewrite !(render_trans w self1 self2 t) by assumption.
  reflexivity.
Qed.

Lemma create_all_videos_not_loaded w self (dir : string) :
  fst (load_data (kin w) (trans w) self) = false ->
  create_all_videos norm w self dir = ([], Ok false).
Proof.
  unfold create_all_videos.
  destruct (load_data (kin w) (trans w) self) as [ok self1].
  cbn [fst]. intros ->. reflexivity.
Qed.

Lemma create_all_videos_only_if w self (dir : string) :
  snd (create_all_videos norm w self dir) = Ok true ->
  fst (load_data (kin w) (trans w) self) = true
  /\ exists group l,
       (group = "master" \/ group = "slave")
       /\ create_combined_trajectory_video norm w
            (snd (load_data (kin w) (trans w) self)) group
            (output_file dir (snd (load_data (kin w) (trans w) self)) group)
          = (l, Ok true).
Proof.
  unfold create_all_videos.
  destruct (load_data (kin w) (trans w) self) as [ok self1].
  cbn [fst snd]. destruct ok; [|intros H; discriminate H]. cbn [negb].
  destruct (mkdir_succeeds w); [|intros H; discriminate H].
  cbn [tbind lift].
  destruct (create_combined_trajectory_video norm w self1 "master" _)
    as [lm [m|e]] eqn:Em; [|intros H; discriminate H].
  destruct (create_combined_trajectory_video norm w self1 "slave" _)
    as [ls [s|e]] eqn:Es; [|intros H; discriminate H].
  cbn [tret snd]. intros H. split; [reflexivity|].
  destruct m.
  - exists "master", lm. split; [left; reflexivity|exact Em].
  - destruct s; [|discriminate H].
    exists "slave", ls. split; [right; reflexivity|exact Es].
Qed.

End OrchestratorFacts.

Section OrchestratorTheorems.

Variable cell : Type.
Variable norm : list cell -> cell.

Implicit Types (w : world cell) (self : generator cell).

Lemma render_outcome_ok w (group name : string) :
  exists l b, render_outcome w group name = (l, Ok b).
Proof.
  unfold render_outcome.
  destruct (get_best_video_writer w name) as [[wr|] corrected]; eauto.
Qed.

(** With no usable writer the render stops with [False] after closing
    the figure, and [anim.save] is never called. *)
Lemma render_without_writer w self a (group name : string) :
  kinematics_data self = Some a -> schema_table a ->
  is_Some (task_configs !! task self) ->
  group = "master" \/ group = "slave" ->
  "ffmpeg" ∉ available_writers w \/ ffmpeg_constructs w = false ->
  "pillow" ∉ available_writers w \/ pillow_constructs w = false ->
  create_combined_trajectory_video norm w self group name
  = ([EvRender group; EvFigureOpen; EvFigureClose], Ok false).
Proof.
  intros Hk Hs Ht Hg Hf Hp.
  rewrite (render_on_schema_table cell norm w self a) by assumption.
  unfold render_outcome. rewrite writer_none by assumption. reflexivity.
Qed.


End OrchestratorTheorems.

Lemma sample_table_schema : schema_table (Arr2 76 sample_table).
Proof.
  exists 76%nat, sample_table. split; [reflexivity|].
  split; [exact sample_table_wf|]. split; [discriminate|lia].
Qed.


(** C7, the fallback name. The selector replaces every occurrence of
    ".mp4", not the extension only: with the animated-image writer alone,
    the name "run.mp4s/clip.mp4" becomes "run.gifs/clip.gif", whereas
    substituting the extension gives "run.mp4s/clip.gif".  A run into
    the output directory "run.mp4s" hands [anim.save] files of the
    directory "run.gifs". *)
Theorem C7_fallback_rewrites_every_occurrence :
  get_best_video_writer sample_world "run.mp4s/clip.mp4"
  = (Some PillowWriter, "run.gifs/clip.gif")
  /\ snd (get_best_video_writer sample_world "run.mp4s/clip.mp4")
     <> "run.mp4s/clip.gif"
  /\ fst (create_all_videos (fun _ => 0) sample_world
            (init "B001" "Suturing") "run.mp4s")
     = [EvRender "master"; EvFigureOpen;
        EvSave PillowWriter "run.gifs/Suturing_B001_master_combined.gif";
        EvFigureClose;
        EvRender "slave"; EvFigureOpen;
        EvSave PillowWriter "run.gifs/Suturing_B001_slave_combined.gif";
        EvFigureClose].
Proof.
  split; [vm_compute; reflexivity|]. split.
  - vm_compute. intros H. discriminate H.
  - vm_compute. reflexivity.
Qed.

(** * Further properties *)

(** ** Strings *)

Lemma string_app_cons (x : ascii) (a b : string) :
  String x a +:+ b = String x (a +:+ b).
Proof. reflexivity. Qed.

Lemma string_app_nil_l (b : string) : "" +:+ b = b.
Proof. reflexivity. Qed.

Lemma string_app_assoc (a b c : string) : (a +:+ b) +:+ c = a +:+ (b +:+ c).
Proof.
  induction a as [|x a IH]; [reflexivity|].
  rewrite !string_app_cons. f_equal. exact IH.
Qed.

Lemma string_app_nil_r (a : string) : a +:+ "" = a.
Proof.
  induction a as [|x a IH]; [reflexivity|].
  rewrite string_app_cons. f_equal. exact IH.
Qed.

Lemma string_all_app (p : ascii -> bool) (a b : string) :
  string_all p (a +:+ b) = string_all p a && string_all p b.
Proof.
  induction a as [|x a IH]; [reflexivity|].
  rewrite string_app_cons. cbn [string_all]. rewrite IH. apply andb_assoc.
Qed.

Lemma string_all_impl (p q : ascii -> bool) (s : string) :
  (forall c, p c = true -> q c = true) ->
  string_all p s = true -> string_all q s = true.
Proof.
  intros Hpq. induction s as [|c s IH]; [reflexivity|].
  cbn [string_all]. intros H. apply andb_true_iff in H as [Hc Hs].
  rewrite (Hpq c Hc), (IH Hs). reflexivity.
Qed.

Lemma rev_app_spec (a b : string) :
  String.rev_app a b = String.rev a +:+ b.
Proof.
  unfold String.rev. revert b. induction a as [|x a IH]; intros b.
  - reflexivity.
  - cbn [String.rev_app].
    rewrite (IH (String x b)), (IH (String x "")), string_app_assoc.
    reflexivity.
Qed.

Lemma rev_cons (x : ascii) (a : string) :
  String.rev (String x a) = String.rev a +:+ String x "".
Proof. unfold String.rev at 1. cbn [String.rev_app]. apply rev_app_spec. Qed.

Lemma rev_string_app (a b : string) :
  String.rev (a +:+ b) = String.rev b +:+ String.rev a.
Proof.
  induction a as [|x a IH].
  - rewrite string_app_nil_l. cbn. rewrite string_app_nil_r. reflexivity.
  - rewrite string_app_cons, !rev_cons, IH. apply string_app_assoc.
Qed.

Lemma rev_involutive (a : string) : String.rev (String.rev a) = a.
Proof.
  induction a as [|x a IH]; [reflexivity|].
  rewrite rev_cons, rev_string_app, IH. reflexivity.
Qed.

Lemma string_all_rev (p : ascii -> bool) (a : string) :
  string_all p (String.rev a) = string_all p a.
Proof.
  induction a as [|x a IH]; [reflexivity|].
  rewrite rev_cons, string_all_app, IH. cbn [string_all].
  rewrite andb_true_r. apply andb_comm.
Qed.

Lemma lstrip_head_nonspace (s t : string) :
  head_nonspace s = true -> PyStr.lstrip (s +:+ t) = s +:+ t.
Proof.
  destruct s as [|c s]; [discriminate|].
  cbn [head_nonspace]. unfold nonspace. intros H.
  rewrite string_app_cons. cbn [PyStr.lstrip].
  destruct (PyStr.isspace c); [discriminate H|reflexivity].
Qed.

Lemma lstrip_spaces (sp s : string) :
  string_all PyStr.isspace sp = true ->
  PyStr.lstrip (sp +:+ s) = PyStr.lstrip s.
Proof.
  induction sp as [|c sp IH]; [reflexivity|].
  cbn [string_all]. intros H. apply andb_true_iff in H as [Hc Hsp].
  rewrite string_app_cons. cbn [PyStr.lstrip]. rewrite Hc. apply IH, Hsp.
Qed.

Lemma head_nonspace_app (a b : string) :
  head_nonspace a = true -> head_nonspace (a +:+ b) = true.
Proof. destruct a; [discriminate|]. intros H. exact H. Qed.

(** A string without outer white space, followed by white space only,
    strips to itself. *)
Lemma strip_tail (s tail : string) :
  head_nonspace s = true -> head_nonspace (String.rev s) = true ->
  string_all PyStr.isspace tail = true ->
  PyStr.strip (s +:+ tail) = s.
Proof.
  intros Hh Hl Ht. unfold PyStr.strip, PyStr.rstrip.
  rewrite lstrip_head_nonspace by exact Hh.
  rewrite rev_string_app.
  rewrite lstrip_spaces by (rewrite string_all_rev; exact Ht).
  rewrite <- (string_app_nil_r (String.rev s)).
  rewrite lstrip_head_nonspace by exact Hl.
  rewrite string_app_nil_r. apply rev_involutive.
Qed.

Lemma solid_head (s : string) :
  s <> "" -> string_all nonspace s = true -> head_nonspace s = true.
Proof.
  destruct s as [|c s]; [congruence|].
  cbn [string_all head_nonspace]. intros _ H.
  apply andb_true_iff in H as [H _]. exact H.
Qed.

Lemma rev_nonempty (s : string) : s <> "" -> String.rev s <> "".
Proof.
  intros H E. apply H. rewrite <- (rev_involutive s), E. reflexivity.
Qed.

Lemma solid_last (s : string) :
  s <> "" -> string_all nonspace s = true ->
  head_nonspace (String.rev s) = true.
Proof.
  intros Hne Hs. apply solid_head; [apply rev_nonempty, Hne|].
  rewrite string_all_rev. exact Hs.
Qed.

(** ** Decimal numbers *)

Lemma is_digit_facts (c : ascii) :
  is_digit c = true ->
  nonspace c = true /\ not_eol c = true
  /\ c <> "-"%char /\ c <> "+"%char /\ c <> "G"%char.
Proof.
  destruct c as [[] [] [] [] [] [] [] []]; intros H;
    try (cbv in H; discriminate H);
    (repeat split; try reflexivity; intros E; discriminate E).
Qed.

Lemma pretty_N_char_digit (d : N) :
  (d < 10)%N -> PyStr.digit_val (pretty_N_char d) = Some (Z.of_N d).
Proof.
  intros H.
  assert (d = 0 \/ d = 1 \/ d = 2 \/ d = 3 \/ d = 4 \/ d = 5 \/ d = 6
          \/ d = 7 \/ d = 8 \/ d = 9)%N as Hc by lia.
  repeat (destruct Hc as [->|Hc]; [reflexivity|]). subst. reflexivity.
Qed.

Lemma pretty_N_go_all_digits (x : N) (s : string) :
  string_all is_digit s = true ->
  string_all is_digit (pretty_N_go x s) = true.
Proof.
  revert s. induction (N.lt_wf_0 x) as [x _ IH]; intros s Hs.
  assert (x = 0 \/ 0 < x)%N as [->|Hx] by lia.
  - rewrite pretty_N_go_0. exact Hs.
  - rewrite pretty_N_go_step by exact Hx.
    apply IH; [apply N.div_lt; lia|].
    cbn [string_all]. rewrite Hs, andb_true_r.
    unfold is_digit. rewrite pretty_N_char_digit; [reflexivity|].
    apply N.mod_lt. lia.
Qed.

(** Reading back the digits that [str] prints. *)
Lemma digits_go_pretty_N_go (x : N) (prev : bool) (s : string) :
  (0 < x)%N ->
  PyStr.digits_go 0 prev (pretty_N_go x s)
  = PyStr.digits_go (Z.of_N x) true s.
Proof.
  revert prev s. induction (N.lt_wf_0 x) as [x _ IH]; intros prev s Hx.
  rewrite pretty_N_go_step by exact Hx.
  destruct (N.eq_0_gt_0_cases (x `div` 10)) as [E|Hd].
  - rewrite E, pretty_N_go_0. cbn [PyStr.digits_go].
    rewrite pretty_N_char_digit by (apply N.mod_lt; lia).
    f_equal.
    pose proof (N.div_mod x 10 ltac:(lia)) as Hdm. rewrite E in Hdm. lia.
  - rewrite IH by (try apply N.div_lt; lia).
    cbn [PyStr.digits_go].
    rewrite pretty_N_char_digit by (apply N.mod_lt; lia).
    f_equal.
    pose proof (N.div_mod x 10 ltac:(lia)) as Hdm. lia.
Qed.

Lemma pretty_Zpos (p : positive) :
  pretty (Z.pos p) = pretty_N_go (N.pos p) "".
Proof.
  unfold pretty, pretty_Z, pretty, pretty_positive, pretty, pretty_N.
  destruct (decide (N.pos p = 0%N)) as [E|_]; [discriminate E|reflexivity].
Qed.

Lemma pretty_Zneg (p : positive) :
  pretty (Z.neg p) = String "-" (pretty (Z.pos p)).
Proof. reflexivity. Qed.

Lemma pretty_Zpos_digits (p : positive) :
  string_all is_digit (pretty (Z.pos p)) = true
  /\ PyStr.digits_go 0 false (pretty (Z.pos p)) = Some (Z.pos p)
  /\ pretty (Z.pos p) <> "".
Proof.
  rewrite pretty_Zpos.
  assert (PyStr.digits_go 0 false (pretty_N_go (N.pos p) "")
          = Some (Z.pos p)) as Hd
    by (rewrite digits_go_pretty_N_go by lia; reflexivity).
  split; [apply pretty_N_go_all_digits; reflexivity|].
  split; [exact Hd|].
  intros E. rewrite E in Hd. discriminate Hd.
Qed.

(** What [str] prints has no white space, no line ending and is not
    empty. *)
Lemma pretty_Z_solid (z : Z) :
  pretty z <> ""
  /\ string_all nonspace (pretty z) = true
  /\ string_all not_eol (pretty z) = true.
Proof.
  destruct z as [|p|p].
  - split; [discriminate|]. split; reflexivity.
  - destruct (pretty_Zpos_digits p) as (Hd & _ & Hne).
    split; [exact Hne|].
    split; (eapply string_all_impl; [|exact Hd]); intros c Hc;
      apply is_digit_facts in Hc; tauto.
  - rewrite pretty_Zneg. destruct (pretty_Zpos_digits p) as (Hd & _ & _).
    split; [discriminate|]. cbn [string_all].
    split; (rewrite andb_true_iff; split; [reflexivity|]);
      (eapply string_all_impl; [|exact Hd]); intros c Hc;
      apply is_digit_facts in Hc; tauto.
Qed.

Lemma strip_solid (s : string) :
  s <> "" -> string_all nonspace s = true -> PyStr.strip s = s.
Proof.
  intros Hne Hs. rewrite <- (string_app_nil_r s) at 1.
  apply strip_tail; [apply solid_head|apply solid_last|reflexivity];
    assumption.
Qed.

Lemma int_unsigned (c : ascii) (s : string) :
  is_digit c = true ->
  PyStr.strip (String c s) = String c s ->
  PyStr.int (String c s) = PyStr.digits_go 0 false (String c s).
Proof.
  intros Hd Hs. unfold PyStr.int. rewrite Hs.
  destruct c as [[] [] [] [] [] [] [] []];
    try (cbv in Hd; discriminate Hd); reflexivity.
Qed.

(** [int(str(z)) == z] *)
Lemma int_pretty (z : Z) : PyStr.int (pretty z) = Some z.
Proof.
  destruct (pretty_Z_solid z) as (Hne & Hsp & _).
  pose proof (strip_solid _ Hne Hsp) as Hstrip.
  destruct z as [|p|p].
  - reflexivity.
  - destruct (pretty_Zpos_digits p) as (Hd & Hv & _).
    destruct (pretty (Z.pos p)) as [|c s] eqn:E; [congruence|].
    cbn [string_all] in Hd. apply andb_true_iff in Hd as [Hc _].
    rewrite int_unsigned by assumption. exact Hv.
  - destruct (pretty_Zpos_digits p) as (_ & Hv & _).
    unfold PyStr.int. rewrite Hstrip, pretty_Zneg, Hv. reflexivity.
Qed.

(** ** Lines of the annotation format *)

Lemma string_eqb_nonempty (s : string) : s <> "" -> String.eqb s "" = false.
Proof.
  intros H. destruct (String.eqb_spec s ""); [congruence|reflexivity].
Qed.

Lemma split_go_token (cur tok rest : string) :
  string_all nonspace tok = true ->
  PyStr.split_go cur (tok +:+ rest) = PyStr.split_go (cur +:+ tok) rest.
Proof.
  revert cur. induction tok as [|c tok IH]; intros cur H.
  - rewrite string_app_nil_r. reflexivity.
  - cbn [string_all] in H. apply andb_true_iff in H as [Hc Ht].
    unfold nonspace in Hc.
    rewrite string_app_cons. cbn [PyStr.split_go].
    destruct (PyStr.isspace c); [discriminate Hc|].
    rewrite IH by exact Ht. rewrite string_app_assoc. reflexivity.
Qed.

Lemma split_go_spaces (sp rest : string) :
  string_all PyStr.isspace sp = true ->
  PyStr.split_go "" (sp +:+ rest) = PyStr.split_go "" rest.
Proof.
  induction sp as [|c sp IH]; [reflexivity|].
  cbn [string_all]. intros H. apply andb_true_iff in H as [Hc Hsp].
  rewrite string_app_cons. cbn [PyStr.split_go]. rewrite Hc.
  cbn [String.eqb]. apply IH, Hsp.
Qed.

Lemma split_go_separator (cur sp rest : string) :
  cur <> "" -> sp <> "" -> string_all PyStr.isspace sp = true ->
  PyStr.split_go cur (sp +:+ rest) = cur :: PyStr.split_go "" rest.
Proof.
  intros Hcur Hne H. destruct sp as [|c sp]; [congruence|].
  cbn [string_all] in H. apply andb_true_iff in H as [Hc Hsp].
  rewrite string_app_cons. cbn [PyStr.split_go]. rewrite Hc.
  rewrite string_eqb_nonempty by exact Hcur.
  rewrite split_go_spaces by exact Hsp. reflexivity.
Qed.

Lemma split_go_end (cur : string) :
  cur <> "" -> PyStr.split_go cur "" = [cur].
Proof.
  intros H. cbn [PyStr.split_go]. rewrite string_eqb_nonempty by exact H.
  reflexivity.
Qed.

Lemma string_app_nonempty_l (a b : string) : a <> "" -> a +:+ b <> "".
Proof. destruct a; [congruence|]. intros _ E. discriminate E. Qed.

Lemma pretty_not_G (z : Z) (r : string) : pretty z <> String "G" r.
Proof.
  destruct z as [|p|p]; [discriminate| |discriminate].
  destruct (pretty_Zpos_digits p) as (Hd & _ & _).
  intros E. rewrite E in Hd. cbn [string_all] in Hd.
  apply andb_true_iff in Hd as [Hc _]. discriminate Hc.
Qed.

Lemma format_gesture_solid (with_g : bool) (gid : Z) :
  format_gesture with_g gid <> ""
  /\ string_all nonspace (format_gesture with_g gid) = true
  /\ string_all not_eol (format_gesture with_g gid) = true.
Proof.
  destruct (pretty_Z_solid gid) as (Hne & Hsp & Hnl).
  destruct with_g; cbn [format_gesture].
  - split; [discriminate|].
    rewrite !string_all_app, Hsp, Hnl. split; reflexivity.
  - auto.
Qed.

Lemma parse_gesture_format (with_g : bool) (gid : Z) :
  parse_gesture (format_gesture with_g gid) = Some gid.
Proof.
  unfold parse_gesture. destruct with_g; cbn [format_gesture].
  - rewrite (proj2 (startswith_G ("G" +:+ pretty gid)))
      by (exists (pretty gid); reflexivity).
    cbn [PyStr.tail String.append]. apply int_pretty.
  - destruct (PyStr.startswith "G" (pretty gid)) eqn:E.
    + apply startswith_G in E as [r Hr].
      exfalso. exact (pretty_not_G gid r Hr).
    + apply int_pretty.
Qed.

(** The tokens of a laid-out line. *)
Lemma laid_out_tokens (lead sep1 sep2 tail : string) (with_g : bool)
    (iv : interval) :
  string_all PyStr.isspace lead = true ->
  string_all PyStr.isspace tail = true ->
  sep1 <> "" -> string_all PyStr.isspace sep1 = true ->
  sep2 <> "" -> string_all PyStr.isspace sep2 = true ->
  PyStr.strip (laid_out lead sep1 sep2 tail with_g iv) <> ""
  /\ PyStr.split (PyStr.strip (laid_out lead sep1 sep2 tail with_g iv))
     = [pretty (start_frame iv); pretty (end_frame iv);
        format_gesture with_g (gesture_id iv)].
Proof.
  intros Hlead Htail Hn1 Hs1 Hn2 Hs2.
  destruct (pretty_Z_solid (start_frame iv)) as (HAne & HAsp & _).
  destruct (pretty_Z_solid (end_frame iv)) as (HBne & HBsp & _).
  destruct (format_gesture_solid with_g (gesture_id iv)) as (HTne & HTsp & _).
  set (A := pretty (start_frame iv)) in *.
  set (B := pretty (end_frame iv)) in *.
  set (T := format_gesture with_g (gesture_id iv)) in *.
  set (L := A +:+ sep1 +:+ B +:+ sep2 +:+ T).
  assert (PyStr.strip (laid_out lead sep1 sep2 tail with_g iv) = L) as Hstrip.
  { unfold laid_out. fold A B T. unfold PyStr.strip.
    rewrite lstrip_spaces by exact Hlead.
    change (PyStr.rstrip (PyStr.lstrip ?s)) with (PyStr.strip s).
    replace (A +:+ sep1 +:+ B +:+ sep2 +:+ T +:+ tail) with (L +:+ tail)
      by (unfold L; rewrite !string_app_assoc; reflexivity).
    apply strip_tail; [| |exact Htail].
    - unfold L. apply head_nonspace_app, solid_head; assumption.
    - unfold L.
      replace (A +:+ sep1 +:+ B +:+ sep2 +:+ T)
        with ((A +:+ sep1 +:+ B +:+ sep2) +:+ T)
        by (rewrite !string_app_assoc; reflexivity).
      rewrite rev_string_app.
      apply head_nonspace_app, solid_last; assumption. }
  rewrite Hstrip. split.
  - unfold L. apply string_app_nonempty_l, HAne.
  - unfold PyStr.split, L.
    rewrite split_go_token, string_app_nil_l by exact HAsp.
    rewrite split_go_separator by assumption.
    rewrite split_go_token, string_app_nil_l by exact HBsp.
    rewrite split_go_separator by assumption.
    rewrite <- (string_app_nil_r T) at 1.
    rewrite split_go_token, string_app_nil_l by exact HTsp.
    rewrite split_go_end by exact HTne. reflexivity.
Qed.

(** The three printed tokens read back as the interval. *)
Lemma parse_parts_printed (with_g : bool) (iv : interval) :
  parse_parts [pretty (start_frame iv); pretty (end_frame iv);
               format_gesture with_g (gesture_id iv)]
  = Some iv.
Proof.
  cbn [parse_parts]. rewrite !int_pretty, parse_gesture_format. cbn.
  destruct iv; reflexivity.
Qed.



(** ** Files of the annotation format *)

Lemma readlines_go_text (cur l rest : string) :
  string_all not_eol l = true ->
  PyStr.readlines_go cur (l +:+ rest) = PyStr.readlines_go (cur +:+ l) rest.
Proof.
  revert cur. induction l as [|c l IH]; intros cur H.
  - rewrite string_app_nil_r. reflexivity.
  - cbn [string_all] in H. apply andb_true_iff in H as [Hc Hl].
    unfold not_eol in Hc. apply andb_true_iff in Hc as [H10 H13].
    rewrite string_app_cons. cbn [PyStr.readlines_go].
    destruct (Ascii.eqb c "010"); [discriminate H10|].
    destruct (Ascii.eqb c "013"); [discriminate H13|].
    rewrite IH by exact Hl. rewrite string_app_assoc. reflexivity.
Qed.

Lemma readlines_go_newline (nl : newline) (cur rest : string) :
  head_not_lf rest = true ->
  PyStr.readlines_go cur (newline_text nl +:+ rest)
  = (cur +:+ String "010" "") :: PyStr.readlines_go "" rest.
Proof.
  intros H. destruct nl; cbn [newline_text];
    rewrite ?string_app_cons, ?string_app_nil_l; try reflexivity.
  destruct rest as [|c rest]; [reflexivity|].
  cbn [head_not_lf] in H. cbn [PyStr.readlines_go].
  change (Ascii.eqb "013" "010") with false.
  change (Ascii.eqb "013" "013") with true. cbv iota.
  destruct (Ascii.eqb c "010"); [discriminate H|reflexivity].
Qed.

Lemma format_line_text (with_g : bool) (iv : interval) :
  string_all not_eol (format_line with_g iv) = true
  /\ head_not_lf (format_line with_g iv) = true
  /\ format_line with_g iv <> "".
Proof.
  destruct (pretty_Z_solid (start_frame iv)) as (HAne & _ & HA).
  destruct (pretty_Z_solid (end_frame iv)) as (_ & _ & HB).
  destruct (format_gesture_solid with_g (gesture_id iv)) as (_ & _ & HT).
  unfold format_line. split; [|split].
  - rewrite !string_all_app, HA, HB, HT. reflexivity.
  - destruct (pretty (start_frame iv)) as [|c A]; [congruence|].
    cbn [string_all] in HA. apply andb_true_iff in HA as [Hc _].
    unfold not_eol in Hc. apply andb_true_iff in Hc as [Hc _].
    rewrite string_app_cons. exact Hc.
  - apply string_app_nonempty_l, HAne.
Qed.

Lemma format_file_head (nl : newline) (with_g : bool) (rows : list interval) :
  head_not_lf (format_file nl with_g rows) = true.
Proof.
  destruct rows as [|iv rows]; [reflexivity|]. cbn [format_file].
  destruct (format_line_text with_g iv) as (_ & H & Hne).
  destruct (format_line with_g iv) as [|c l]; [congruence|exact H].
Qed.

(** The lines of a written file, as the loop over the file sees them. *)
Lemma readlines_format_file (nl : newline) (with_g : bool)
    (rows : list interval) :
  PyStr.readlines (format_file nl with_g rows)
  = map (fun iv => format_line with_g iv +:+ String "010" "") rows.
Proof.
  unfold PyStr.readlines. induction rows as [|iv rows IH]; [reflexivity|].
  cbn [format_file map].
  rewrite readlines_go_text by apply format_line_text.
  rewrite string_app_nil_l.
  rewrite readlines_go_newline by apply format_file_head.
  rewrite IH. reflexivity.
Qed.

Lemma omap_cons_Some {A B} (f : A -> option B) (x : A) (y : B) (l : list A) :
  f x = Some y -> omap f (x :: l) = y :: omap f l.
Proof. intros H. simpl omap. rewrite H. reflexivity. Qed.

Lemma parse_line_format_line (with_g : bool) (iv : interval) :
  parse_line (format_line with_g iv +:+ String "010" "") = Some iv.
Proof.
  destruct (laid_out_tokens "" " " " " (String "010" "") with_g iv)
    as [Hne Htok]; try (reflexivity || discriminate).
  unfold laid_out in Hne, Htok. rewrite string_app_nil_l in Hne, Htok.
  unfold format_line. rewrite !string_app_assoc.
  unfold parse_line.
  rewrite string_eqb_nonempty by exact Hne.
  rewrite Htok. apply parse_parts_printed.
Qed.


(** ** More on the gesture lookup *)

Lemma gesture_scan_covered (rows more : list interval) (f : Z) :
  Exists (fun iv => covers iv f) rows ->
  gesture_scan (rows ++ more) f = gesture_scan rows f.
Proof.
  induction rows as [|iv rows IH]; intros H.
  - inversion H.
  - cbn [app gesture_scan].
    destruct ((start_frame iv <=? f) && (f <=? end_frame iv)) eqn:E;
      [reflexivity|].
    apply IH. inversion H as [? ? Hc|? ? Hr]; subst; [|exact Hr].
    exfalso. destruct Hc as [H1 H2].
    apply Z.leb_le in H1, H2. rewrite H1, H2 in E. discriminate E.
Qed.



Lemma gesture_label_not_fixed (gid : Z) :
  gesture_label gid <> "Transition" /\ gesture_label gid <> "No gesture data".
Proof.
  unfold gesture_label. destruct (gestures !! gid) as [d|] eqn:E.
  - apply elem_of_list_to_map_2 in E. cbn [default].
    repeat (apply elem_of_cons in E as [E|E];
            [injection E as _ ->; split; discriminate|]).
    inversion E.
  - cbn [default]. split; intros H; discriminate H.
Qed.

Lemma gesture_scan_miss (iv : interval) (rows : list interval) (f : Z) :
  ~ covers iv f -> gesture_scan (iv :: rows) f = gesture_scan rows f.
Proof.
  intros H. apply (gesture_scan_skip [iv] rows f). constructor; auto.
Qed.

Lemma gesture_scan_label (rows : list interval) (f : Z) :
  (gesture_scan rows f = "Transition"
   /\ Forall (fun iv => ~ covers iv f) rows)
  \/ (exists pre iv post,
        rows = pre ++ iv :: post
        /\ Forall (fun iv' => ~ covers iv' f) pre
        /\ covers iv f
        /\ gesture_scan rows f = gesture_label (gesture_id iv)).
Proof.
  induction rows as [|iv rows IH].
  - left. split; [reflexivity|constructor].
  - destruct (Z.leb_spec (start_frame iv) f) as [H1|H1];
      [destruct (Z.leb_spec f (end_frame iv)) as [H2|H2]|].
    + right. exists [], iv, rows. split; [reflexivity|].
      split; [constructor|]. split; [split; assumption|].
      apply gesture_scan_hit. split; assumption.
    + assert (~ covers iv f) as Hn by (unfold covers; lia).
      destruct IH as [[E Hall]|(pre & iv' & post & -> & Hpre & Hc & E)].
      * left. split; [|constructor; assumption].
        rewrite gesture_scan_miss by exact Hn. exact E.
      * right. exists (iv :: pre), iv', post.
        split; [reflexivity|]. split; [constructor; assumption|].
        split; [exact Hc|].
        apply (gesture_scan_first (iv :: pre) iv' post f);
          [constructor; assumption|exact Hc].
    + assert (~ covers iv f) as Hn by (unfold covers; lia).
      destruct IH as [[E Hall]|(pre & iv' & post & -> & Hpre & Hc & E)].
      * left. split; [|constructor; assumption].
        rewrite gesture_scan_miss by exact Hn. exact E.
      * right. exists (iv :: pre), iv', post.
        split; [reflexivity|]. split; [constructor; assumption|].
        split; [exact Hc|].
        apply (gesture_scan_first (iv :: pre) iv' post f);
          [constructor; assumption|exact Hc].
Qed.

(** X4. The three kinds of text are told apart by the text alone:
    "No gesture data" is shown exactly when no transcriptions are held,
    "Transition" exactly on the frames that no interval covers, and any
    other text is the label of an interval that covers the frame. *)
Theorem lookup_texts (transcriptions : option (list interval)) (f : Z) :
  (get_current_gesture transcriptions f = "No gesture data"
   <-> transcriptions = None)
  /\ (forall rows,
        transcriptions = Some rows ->
        (get_current_gesture transcriptions f = "Transition"
         <-> Forall (fun iv => ~ covers iv f) rows)
        /\ (get_current_gesture transcriptions f <> "Transition" ->
            exists iv,
              iv ∈ rows /\ covers iv f
              /\ get_current_gesture transcriptions f
                 = gesture_label (gesture_id iv))).
Proof.
  split.
  - destruct transcriptions as [rows|]; cbn [get_current_gesture].
    + split; [|discriminate]. intros E. exfalso.
      destruct (gesture_scan_label rows f)
        as [[Et _]|(pre & iv & post & _ & _ & _ & El)].
      * rewrite Et in E. discriminate E.
      * rewrite El in E. exact (proj2 (gesture_label_not_fixed _) E).
    + split; reflexivity.
  - intros rows ->. cbn [get_current_gesture].
    destruct (gesture_scan_label rows f)
      as [[Et Hall]|(pre & iv & post & -> & Hpre & Hc & El)].
    + split; [split; auto|]. intros H. congruence.
    + split.
      * split.
        -- intros E. rewrite El in E.
           destruct (proj1 (gesture_label_not_fixed _) E).
        -- intros Hall. exfalso. rewrite Forall_app, Forall_cons in Hall.
           destruct Hall as (_ & Hn & _). exact (Hn Hc).
      * intros _. exists iv. split; [|split; assumption].
        apply elem_of_app. right. apply list_elem_of_here.
Qed.

Lemma lookup_texts_witness :
  get_current_gesture (Some [Interval 10 20 3]) 25 = "Transition".
Proof.
  destruct (lookup_texts (Some [Interval 10 20 3]) 25) as (_ & H).
  destruct (H [Interval 10 20 3] eq_refl) as ((_ & Hb) & _).
  apply Hb. repeat constructor. unfold covers. simpl. lia.
Defined.

(** ** More on the per-frame update *)

Section FrameFacts.

Variable cell : Type.
Variable norm : list cell -> cell.

Implicit Types (self : generator cell) (rows : list (list cell)).

(** Everything one call of [animate] puts on the figure. *)
Lemma animate_frame (transcriptions : option (list interval))
    (left_data right_data : bundle cell) (n : nat) (f : Z) :
  bundle_ok n left_data -> bundle_ok n right_data -> 0 <= f < Z.of_nat n ->
  exists lp rp t lv rv lg rg,
    positions left_data !! Z.to_nat f = Some lp
    /\ positions right_data !! Z.to_nat f = Some rp
    /\ time left_data !! Z.to_nat f = Some t
    /\ velocities left_data !! Z.to_nat f = Some lv
    /\ velocities right_data !! Z.to_nat f = Some rv
    /\ gripper left_data !! Z.to_nat f = Some lg
    /\ gripper right_data !! Z.to_nat f = Some rg
    /\ animate norm transcriptions left_data right_data f
       = Ok (FrameRender cell
               (trail_update (positions left_data) f) lp
               (trail_update (positions right_data) f) rp
               (TimeInfo t f (Z.of_nat n - 1)
                  (inject_Z f / inject_Z (Z.of_nat n) * 100)%Q)
               (ToolInfo cell (norm lv) lg)
               (ToolInfo cell (norm rv) rg)
               (get_current_gesture transcriptions f)).
Proof.
  intros (Hlp & Hlr & Hlv & Hlg & Hlt) (Hrp & Hrr & Hrv & Hrg & _) Hf.
  unfold animate.
  destruct (point_at_ok cell (positions left_data) f Hlr) as (lp & -> & Elp);
    [lia|].
  destruct (point_at_ok cell (positions right_data) f Hrr) as (rp & -> & Erp);
    [lia|].
  destruct (py_index_ok (time left_data) f) as (t & -> & Et); [lia|].
  destruct (py_index_ok (velocities left_data) f) as (lv & -> & Elv); [lia|].
  destruct (py_index_ok (velocities right_data) f) as (rv & -> & Erv); [lia|].
  destruct (py_index_ok (gripper left_data) f) as (lg & -> & Elg); [lia|].
  destruct (py_index_ok (gripper right_data) f) as (rg & -> & Erg); [lia|].
  cbn [rbind]. unfold progress_percent. rewrite Hlp.
  destruct (Nat.eqb_spec n 0) as [->|_]; [lia|].
  cbn [rbind]. exists lp, rp, t, lv, rv, lg, rg. repeat split; assumption.
Qed.

Lemma window_reaches (pos : list (list cell)) (f : Z) (t : trail cell)
    (p : list cell) :
  0 <= f ->
  pos !! Z.to_nat f = Some p ->
  is_window pos (Z.max 0 (f - 150)) (f + 1) t ->
  trail_reaches t (Z.to_nat (Z.min (f + 1) 151)) p.
Proof.
  intros Hf Hp (Hx & Hy & Hz). unfold trail_reaches.
  assert (Z.to_nat (f + 1 - Z.max 0 (f - 150))
          = Z.to_nat (Z.min (f + 1) 151)) as El by lia.
  assert (Z.to_nat (f - Z.max 0 (f - 150))
          = (Z.to_nat (f + 1 - Z.max 0 (f - 150)) - 1)%nat) as Ei by lia.
  destruct Hx as [Lx Ix], Hy as [Ly Iy], Hz as [Lz Iz].
  rewrite <- El, <- Ei. repeat split; try assumption.
  - apply Ix; [lia|exact Hp].
  - apply Iy; [lia|exact Hp].
  - apply Iz; [lia|exact Hp].
Qed.

(** X5. On a table of the fixed schema, at every frame
    [0 <= f < frame_count] each trail has [min(f + 1, 151)] points (the
    150 earlier positions at most, and the current one) and ends at
    the position drawn as the live marker. *)
Theorem trail_ends_at_marker self ncols rows (left_role right_role : string)
    (f : Z) :
  kinematics_data self = Some (Arr2 ncols rows) ->
  Forall (fun r => length r = ncols) rows ->
  (76 <= ncols)%nat ->
  left_role ∈ roles -> right_role ∈ roles ->
  0 <= f < Z.of_nat (length rows) ->
  exists left_data right_data fr tl tr,
    extract_manipulator_data self left_role = Ok (Some left_data)
    /\ extract_manipulator_data self right_role = Ok (Some right_data)
    /\ animate norm (transcriptions_data self) left_data right_data f = Ok fr
    /\ left_trail fr = Some tl
    /\ right_trail fr = Some tr
    /\ trail_reaches tl (Z.to_nat (Z.min (f + 1) 151)) (left_current fr)
    /\ trail_reaches tr (Z.to_nat (Z.min (f + 1) 151)) (right_current fr).
Proof.
  intros Hk Hwf Hn Hlr Hrr Hf.
  destruct (extract_bundle_ok cell self ncols rows left_role Hk Hwf Hn Hlr)
    as (l & El & Hl).
  destruct (extract_bundle_ok cell self ncols rows right_role Hk Hwf Hn Hrr)
    as (r & Er & Hr).
  destruct (animate_frame (transcriptions_data self) l r (length rows) f
              Hl Hr Hf)
    as (lp & rp & t & lv & rv & lg & rg & Hlp & Hrp & _ & _ & _ & _ & _ & E).
  destruct Hl as (Hln & Hl3 & _). destruct Hr as (Hrn & Hr3 & _).
  destruct (trail_update_window cell (positions l) f Hl3) as (tl & Etl & Wl);
    [lia|].
  destruct (trail_update_window cell (positions r) f Hr3) as (tr & Etr & Wr);
    [lia|].
  eexists l, r, _, tl, tr. split; [exact El|]. split; [exact Er|].
  split; [exact E|]. cbn [left_trail right_trail left_current right_current].
  split; [exact Etl|]. split; [exact Etr|].
  split.
  - apply (window_reaches (positions l) f); (lia || assumption).
  - apply (window_reaches (positions r) f); (lia || assumption).
Qed.


End FrameFacts.

Lemma trail_ends_at_marker_witness :
  exists left_data right_data fr tl,
    extract_manipulator_data two_row_self "master_left" = Ok (Some left_data)
    /\ extract_manipulator_data two_row_self "master_right"
       = Ok (Some right_data)
    /\ animate (fun _ => 0) None left_data right_data 1 = Ok fr
    /\ left_trail fr = Some tl
    /\ trail_reaches tl 2 (left_current fr).
Proof.
  destruct (trail_ends_at_marker Z (fun _ => 0) two_row_self 76 two_row_table
              "master_left" "master_right" 1 eq_refl two_row_table_wf
              (le_n 76) in_roles_master_left in_roles_master_right)
    as (l & r & fr & tl & tr & El & Er & E & Htl & _ & Hreach & _).
  - vm_compute. split; [discriminate|reflexivity].
  - exists l, r, fr, tl. auto.
Defined.


(** ** More on extraction *)

Lemma spec_column_map_order (role : string) (p v g : nat) :
  (role, (p, v, g)) ∈ spec_column_map -> (p + 3 <= v /\ v + 3 <= g)%nat.
Proof.
  intros H. unfold spec_column_map in H.
  repeat (apply elem_of_cons in H as [H|H];
          [injection H as -> -> -> ->; lia|]).
  inversion H.
Qed.

Section WidthFacts.

Variable cell : Type.

Implicit Types (self : generator cell) (rows : list (list cell)).

Lemma extract_projected_wide self ncols rows role (p v g : nat) :
  kinematics_data self = Some (Arr2 ncols rows) ->
  Forall (fun r => length r = ncols) rows ->
  (g < ncols)%nat ->
  (role, (p, v, g)) ∈ spec_column_map ->
  extract_manipulator_data self role = Ok (Some (projected rows p v g)).
Proof.
  intros Hk Hwf Hg Hrole.
  pose proof (spec_column_map_order _ _ _ _ Hrole) as (Hp & Hv).
  unfold extract_manipulator_data.
  rewrite Hk, (manipulator_columns_spec _ _ _ _ Hrole).
  rewrite !take_columns_three by (assumption || lia).
  cbn [rbind take_column array_len].
  assert (Nat.ltb g ncols = true) as -> by (apply Nat.ltb_lt; lia).
  reflexivity.
Qed.

Lemma extract_too_narrow self ncols rows role (p v g : nat) :
  kinematics_data self = Some (Arr2 ncols rows) ->
  (ncols <= g)%nat ->
  (role, (p, v, g)) ∈ spec_column_map ->
  extract_manipulator_data self role = Raise IndexError.
Proof.
  intros Hk Hg Hrole. unfold extract_manipulator_data.
  rewrite Hk, (manipulator_columns_spec _ _ _ _ Hrole).
  unfold take_columns, take_column.
  destruct (forallb _ [p; S p; S (S p)]); [|reflexivity].
  destruct (forallb _ [v; S v; S (S v)]); [|reflexivity].
  cbn [rbind].
  assert (Nat.ltb g ncols = false) as -> by (apply Nat.ltb_ge; lia).
  reflexivity.
Qed.

(** X7. On a two-dimensional table with rows of one width, extraction
    for a role succeeds exactly when the table reaches the role's
    gripper column (the last column the role reads: 18, 37, 56, 75), and
    then it is the projection of the column map; on a narrower table it
    raises [IndexError] instead of returning [None]. *)
Theorem extraction_needs_width self ncols rows role (p v g : nat) :
  kinematics_data self = Some (Arr2 ncols rows) ->
  Forall (fun r => length r = ncols) rows ->
  (role, (p, v, g)) ∈ spec_column_map ->
  ((g < ncols)%nat ->
   extract_manipulator_data self role = Ok (Some (projected rows p v g)))
  /\ ((ncols <= g)%nat ->
      extract_manipulator_data self role = Raise IndexError).
Proof.
  intros Hk Hwf Hrole. split; intros Hg.
  - apply (extract_projected_wide self ncols); assumption.
  - apply (extract_too_narrow self ncols rows role p v g); assumption.
Qed.

Lemma extract_not_2d self (a : ndarray cell) (role : string) :
  kinematics_data self = Some a ->
  (forall ncols rows, a <> Arr2 ncols rows) ->
  role ∈ roles ->
  extract_manipulator_data self role = Raise IndexError.
Proof.
  intros Hk Ha Hrole.
  apply spec_column_map_roles in Hrole as [[[p v] g] Hrole].
  unfold extract_manipulator_data.
  rewrite Hk, (manipulator_columns_spec _ _ _ _ Hrole).
  destruct a as [x|v0|ncols rows]; try reflexivity.
  exfalso. exact (Ha ncols rows eq_refl).
Qed.

End WidthFacts.

(** A table of 40 columns: enough for the master roles only. *)
Lemma narrow_table_wf :
  Forall (fun r => length r = 40%nat) [take 40 (sample_row 0)].
Proof. repeat constructor. Qed.

Lemma extraction_needs_width_witness :
  extract_manipulator_data
    (Generator "B001" "Suturing" (Some (Arr2 40 [take 40 (sample_row 0)]))
               None 1)
    "master_right"
  = Ok (Some (Bundle [[19; 20; 21]] [[31; 32; 33]] [37] (time_axis 1)))
  /\ extract_manipulator_data
       (Generator "B001" "Suturing" (Some (Arr2 40 [take 40 (sample_row 0)]))
                  None 1)
       "slave_right"
     = Raise IndexError.
Proof.
  split.
  - destruct (extraction_needs_width Z
                (Generator "B001" "Suturing"
                   (Some (Arr2 40 [take 40 (sample_row 0)])) None 1)
                40 [take 40 (sample_row 0)] "master_right" 19 31 37
                eq_refl narrow_table_wf) as [H _].
    + unfold spec_column_map. apply list_elem_of_further, list_elem_of_here.
    + rewrite H by lia. vm_compute. reflexivity.
  - destruct (extraction_needs_width Z
                (Generator "B001" "Suturing"
                   (Some (Arr2 40 [take 40 (sample_row 0)])) None 1)
                40 [take 40 (sample_row 0)] "slave_right" 38 50 56
                eq_refl narrow_table_wf) as [_ H].
    + unfold spec_column_map. do 2 apply list_elem_of_further.
      apply list_elem_of_here.
    + apply H. lia.
Defined.

(** ** More on the renders and the run *)

Lemma group_roles_master :
  group_roles "master" = Some ("master_left", "master_right", master_view).
Proof. reflexivity. Qed.

Lemma group_roles_slave :
  group_roles "slave" = Some ("slave_left", "slave_right", slave_view).
Proof. reflexivity. Qed.

Lemma in_map_master_left :
  ("master_left", (0, 12, 18)%nat) ∈ spec_column_map.
Proof. unfold spec_column_map. apply list_elem_of_here. Qed.

Lemma in_map_master_right :
  ("master_right", (19, 31, 37)%nat) ∈ spec_column_map.
Proof.
  unfold spec_column_map. apply list_elem_of_further, list_elem_of_here.
Qed.

Lemma in_map_slave_left :
  ("slave_left", (57, 69, 75)%nat) ∈ spec_column_map.
Proof.
  unfold spec_column_map. do 3 apply list_elem_of_further.
  apply list_elem_of_here.
Qed.

Section RunFacts.

Variable cell : Type.
Variable norm : list cell -> cell.

Implicit Types (w : world cell) (self : generator cell)
  (rows : list (list cell)).

Lemma projected_ok_wide ncols rows role (p v g : nat) :
  Forall (fun r => length r = ncols) rows ->
  (role, (p, v, g)) ∈ spec_column_map ->
  (g < ncols)%nat ->
  bundle_ok (length rows) (projected rows p v g).
Proof.
  intros Hwf Hrole Hg.
  pose proof (spec_column_map_order _ _ _ _ Hrole) as (Hp & Hv).
  apply (projected_ok cell ncols); (assumption || lia).
Qed.

(** The master render needs the first 38 columns only. *)
Lemma render_master_wide w self ncols rows (name : string) :
  kinematics_data self = Some (Arr2 ncols rows) ->
  Forall (fun r => length r = ncols) rows ->
  rows <> [] ->
  (38 <= ncols)%nat ->
  is_Some (task_configs !! task self) ->
  create_combined_trajectory_video norm w self "master" name
  = render_outcome w "master" name.
Proof.
  intros Hk Hwf Hne Hn [cfg Hcfg].
  assert (bundle_ok (length rows) (projected rows 0 12 18)) as Hlok
    by (apply (projected_ok_wide ncols rows "master_left");
        [assumption|apply in_map_master_left|lia]).
  assert (bundle_ok (length rows) (projected rows 19 31 37)) as Hrok
    by (apply (projected_ok_wide ncols rows "master_right");
        [assumption|apply in_map_master_right|lia]).
  assert (0 <= 0 < Z.of_nat (length rows)) as H0
    by (destruct rows; [congruence|cbn [length]; lia]).
  unfold create_combined_trajectory_video, render_outcome.
  rewrite group_roles_master. cbn [tbind lift emit tret].
  rewrite (extract_projected_wide cell self ncols rows "master_left" 0 12 18)
    by (assumption || lia || apply in_map_master_left).
  cbn [tbind lift emit tret].
  rewrite (extract_projected_wide cell self ncols rows "master_right"
             19 31 37)
    by (assumption || lia || apply in_map_master_right).
  cbn [tbind lift emit tret].
  unfold task_config_of. rewrite Hcfg. cbn [tbind lift emit tret].
  assert (axis_limits_defined
            (positions (projected rows 0 12 18)
             ++ positions (projected rows 19 31 37)) = Ok tt) as ->.
  { cbn [projected positions]. destruct rows; [congruence|reflexivity]. }
  destruct (point_at_ok cell (positions (projected rows 0 12 18)) 0)
    as (p0 & -> & _);
    [apply Hlok|destruct Hlok as [-> _]; exact H0|].
  destruct (point_at_ok cell (positions (projected rows 19 31 37)) 0)
    as (q0 & -> & _);
    [apply Hrok|destruct Hrok as [-> _]; exact H0|].
  destruct (get_best_video_writer w name) as [[wr|] corrected].
  - cbn [tbind lift emit tret].
    rewrite (save_animation_ok cell norm w self _ _ (length rows) wr
               corrected Hlok Hrok).
    reflexivity.
  - reflexivity.
Qed.


(** X9. When [np.loadtxt] hands back a one-dimensional array (a file of
    one row) the loading stage succeeds and counts the values of the row
    as frames; extraction then raises [IndexError] for each of the four
    roles, and the run raises it at the start of the master render. *)
Theorem run_on_one_row_file w self0 (dir : string) (v : list cell) :
  kin w = KinArray (Arr1 v) ->
  mkdir_succeeds w = true ->
  let self := snd (load_data (kin w) (trans w) self0) in
  fst (load_data (kin w) (trans w) self0) = true
  /\ frame_count self = length v
  /\ (forall role, role ∈ roles ->
        extract_manipulator_data self role = Raise IndexError)
  /\ create_all_videos norm w self0 dir
     = ([EvRender "master"], Raise IndexError).
Proof.
  intros Hkin Hmk. cbv zeta. unfold create_all_videos. rewrite Hkin.
  cbn [load_data array_len negb fst snd]. rewrite Hmk. cbn [tbind lift].
  set (self := Generator _ _ _ _ _).
  assert (forall role, role ∈ roles ->
            extract_manipulator_data self role = Raise IndexError) as Hx.
  { intros role Hrole. apply (extract_not_2d cell self (Arr1 v));
      [reflexivity| |exact Hrole].
    intros ncols rows E. discriminate E. }
  split; [reflexivity|]. split; [reflexivity|]. split; [exact Hx|].
  unfold create_combined_trajectory_video at 1.
  rewrite group_roles_master. cbn [tbind lift emit tret].
  rewrite (Hx "master_left") by apply in_roles_master_left.
  reflexivity.
Qed.

(** X10. A task name that is not one of the three configured tasks is
    not reported as a failure: on a table of the fixed schema the run
    raises [KeyError] in the master render, before any figure is
    opened. *)
Theorem run_with_unknown_task w self0 (dir : string) (a : ndarray cell) :
  kin w = KinArray a ->
  schema_table a ->
  task_configs !! task self0 = None ->
  mkdir_succeeds w = true ->
  create_all_videos norm w self0 dir = ([EvRender "master"], Raise KeyError).
Proof.
  intros Hkin (ncols & rows & -> & Hwf & Hne & Hn) Htask Hmk.
  unfold create_all_videos. rewrite Hkin.
  cbn [load_data array_len negb snd]. rewrite Hmk. cbn [tbind lift].
  set (self := Generator _ _ _ _ _).
  unfold create_combined_trajectory_video at 1.
  rewrite group_roles_master. cbn [tbind lift emit tret].
  rewrite (extract_projected_wide cell self ncols rows "master_left" 0 12 18)
    by (reflexivity || assumption || lia || apply in_map_master_left).
  cbn [tbind lift emit tret].
  rewrite (extract_projected_wide cell self ncols rows "master_right"
             19 31 37)
    by (reflexivity || assumption || lia || apply in_map_master_right).
  cbn [tbind lift emit tret].
  unfold task_config_of. cbn [task self]. rewrite Htask. reflexivity.
Qed.

End RunFacts.


Lemma run_on_one_row_file_witness :
  frame_count
    (snd (load_data (kin one_row_world) (trans one_row_world)
            (init "B001" "Suturing")))
  = 76%nat
  /\ create_all_videos (fun _ => 0) one_row_world (init "B001" "Suturing")
       "out"
     = ([EvRender "master"], Raise IndexError).
Proof.
  destruct (run_on_one_row_file Z (fun _ => 0) one_row_world
              (init "B001" "Suturing") "out" (sample_row 0) eq_refl eq_refl)
    as (_ & Hc & _ & Hrun).
  split; [exact Hc|exact Hrun].
Defined.

Lemma run_with_unknown_task_witness :
  create_all_videos (fun _ => 0) sample_world (init "B001" "Cutting") "out"
  = ([EvRender "master"], Raise KeyError).
Proof.
  apply (run_with_unknown_task Z (fun _ => 0) sample_world
           (init "B001" "Cutting") "out" (Arr2 76 sample_table) eq_refl
           sample_table_schema).
  - vm_compute. reflexivity.
  - reflexivity.
Defined.

Section RenderDiscipline.

Variable cell : Type.
Variable norm : list cell -> cell.

Implicit Types (w : world cell) (self : generator cell).

Lemma extract_raises_index_error self (role : string) (e : exn) :
  extract_manipulator_data self role = Raise e -> e = IndexError.
Proof.
  unfold extract_manipulator_data.
  destruct (kinematics_data self) as [a|]; [|discriminate].
  destruct (manipulator_columns role) as [[[pc vc] g]|]; [|discriminate].
  unfold take_columns, take_column, array_len.
  destruct a as [x|v|ncols rows]; cbn [rbind]; try congruence.
  destruct (forallb _ pc); cbn [rbind]; [|congruence].
  destruct (forallb _ vc); cbn [rbind]; [|congruence].
  destruct (Nat.ltb g ncols); cbn [rbind]; [discriminate|congruence].
Qed.

Lemma point_at_raises_index_error (a : list (list cell)) (f : Z) (e : exn) :
  point_at a f = Raise e -> e = IndexError.
Proof.
  assert (forall A (l : list A) i e', py_index l i = Raise e' ->
                                      e' = IndexError) as Hi.
  { intros A l i e'. unfold py_index.
    destruct ((0 <=? _) && (_ <? _)); [|congruence].
    destruct (l !! _); [discriminate|congruence]. }
  unfold point_at.
  destruct (py_index a f) as [row|e0] eqn:E0; cbn [rbind];
    [|intros H; injection H as <-; eapply Hi, E0].
  destruct (py_index row 0) as [x|e1] eqn:E1; cbn [rbind];
    [|intros H; injection H as <-; eapply Hi, E1].
  destruct (py_index row 1) as [y|e2] eqn:E2; cbn [rbind];
    [|intros H; injection H as <-; eapply Hi, E2].
  destruct (py_index row 2) as [z|e3] eqn:E3; cbn [rbind];
    [discriminate|intros H; injection H as <-; eapply Hi, E3].
Qed.

(** X11. Whatever the object, the group and the name: a render that
    returns a flag has closed the figure if it opened one, has called
    [anim.save] at most once, with the writer and the name that the
    selector chose, and returns [True] only if that call succeeded.  A
    render that raises does so before any save, either before the
    figure is opened ([IndexError] from extraction, [KeyError] from the
    task table) or with the figure left open ([ValueError] or
    [IndexError] while scaling the axes and placing the start
    markers). *)
Theorem render_figure_discipline w self (group name : string) :
  let '(tr, r) := create_combined_trajectory_video norm w self group name in
  match r with
  | Ok ok =>
      (tr = [EvRender group] /\ ok = false)
      \/ (tr = [EvRender group; EvFigureOpen; EvFigureClose]
          /\ ok = false
          /\ fst (get_best_video_writer w name) = None)
      \/ (exists wr corrected,
            get_best_video_writer w name = (Some wr, corrected)
            /\ tr = [EvRender group; EvFigureOpen; EvSave wr corrected;
                     EvFigureClose]
            /\ (ok = true -> save_succeeds w wr corrected = true))
  | Raise e =>
      (tr = [EvRender group] /\ (e = IndexError \/ e = KeyError))
      \/ (tr = [EvRender group; EvFigureOpen]
          /\ (e = ValueError \/ e = IndexError))
  end.
Proof.
  unfold create_combined_trajectory_video. cbn [tbind emit lift tret].
  destruct (group_roles group) as [[[lr rr] view]|]; [|left; auto].
  destruct (extract_manipulator_data self lr) as [ld|e] eqn:El;
    [|left; split; [reflexivity|];
      left; eapply extract_raises_index_error, El].
  destruct (extract_manipulator_data self rr) as [rd|e] eqn:Er;
    [|left; split; [reflexivity|];
      left; eapply extract_raises_index_error, Er].
  unfold task_config_of.
  destruct (task_configs !! task self) as [cfg|]; [|left; auto].
  destruct ld as [ld|]; [|left; auto].
  destruct rd as [rd|]; [|left; auto].
  unfold axis_limits_defined.
  destruct (positions ld ++ positions rd); [right; auto|].
  destruct (point_at (positions ld) 0) as [p0|e] eqn:Ep;
    [|right; split; [reflexivity|];
      right; eapply point_at_raises_index_error, Ep].
  destruct (point_at (positions rd) 0) as [q0|e] eqn:Eq;
    [|right; split; [reflexivity|];
      right; eapply point_at_raises_index_error, Eq].
  destruct (get_best_video_writer w name) as [[wr|] corrected] eqn:Ew.
  - right. right. exists wr, corrected.
    split; [reflexivity|]. split; [reflexivity|].
    unfold save_animation. intros H.
    apply andb_true_iff in H as [_ H]. exact H.
  - right. left. auto.
Qed.

(** The selector returns a writer exactly when one of the two encoders
    is listed and can be constructed, the video encoder first; and it
    hands the requested name back unchanged unless it falls back to the
    animated-image writer. *)
Lemma writer_selection w (name : string) :
  let ffmpeg_ok :=
    bool_decide ("ffmpeg" ∈ available_writers w) && ffmpeg_constructs w in
  let pillow_ok :=
    bool_decide ("pillow" ∈ available_writers w) && pillow_constructs w in
  (fst (get_best_video_writer w name) = Some FFMpegWriter
   <-> ffmpeg_ok = true)
  /\ (fst (get_best_video_writer w name) = Some PillowWriter
      <-> ffmpeg_ok = false /\ pillow_ok = true)
  /\ (fst (get_best_video_writer w name) = None
      <-> ffmpeg_ok = false /\ pillow_ok = false)
  /\ (fst (get_best_video_writer w name) <> Some PillowWriter ->
      snd (get_best_video_writer w name) = name).
Proof.
  cbv zeta. unfold get_best_video_writer.
  destruct (bool_decide ("ffmpeg" ∈ available_writers w)
            && ffmpeg_constructs w);
    [|destruct (bool_decide ("pillow" ∈ available_writers w)
                && pillow_constructs w)];
    cbn [fst snd]; repeat split; try congruence; try tauto;
    intros [? ?]; congruence.
Qed.

End RenderDiscipline.

(** ** Names without ".mp4" *)

Lemma prefix_app (p s : string) :
  String.prefix p s = true -> exists post, s = p +:+ post.
Proof.
  revert s. induction p as [|c p IH]; intros s H.
  - exists s. reflexivity.
  - destruct s as [|d s]; [discriminate H|].
    cbn [String.prefix] in H.
    destruct (ascii_dec c d) as [<-|_]; [|discriminate H].
    destruct (IH s H) as [post ->]. exists post. reflexivity.
Qed.

Lemma replace_go_absent (old new s : string) :
  (forall pre post, s <> pre +:+ old +:+ post) ->
  PyStr.replace_go old new 0 s = s.
Proof.
  induction s as [|c s IH]; intros H; [reflexivity|].
  cbn [PyStr.replace_go].
  destruct (String.prefix old (String c s)) eqn:E.
  - apply prefix_app in E as [post E].
    exfalso. apply (H "" post). rewrite string_app_nil_l. exact E.
  - f_equal. apply IH. intros pre post E'.
    apply (H (String c pre) post). rewrite string_app_cons, E'.
    reflexivity.
Qed.

(** X12. A requested name in which ".mp4" does not occur (say
    "clip.avi") comes back from the selector unchanged whichever writer
    is chosen: with the animated-image writer the pictures are then
    saved under a name that is not a ".gif" name. *)
Theorem name_without_mp4_is_kept {cell : Type} (w : world cell)
    (name : string) :
  (forall pre post, name <> pre +:+ ".mp4" +:+ post) ->
  snd (get_best_video_writer w name) = name.
Proof.
  intros H. unfold get_best_video_writer.
  destruct (_ && _); [reflexivity|].
  destruct (_ && _); [|reflexivity].
  cbn [snd]. unfold PyStr.replace. cbn [String.eqb].
  apply replace_go_absent, H.
Qed.

Lemma occurs_absent (old s : string) :
  occurs old s = false -> forall pre post, s <> pre +:+ old +:+ post.
Proof.
  intros H pre. revert s H. induction pre as [|c pre IH]; intros s H post E.
  - rewrite string_app_nil_l in E. subst s.
    destruct old as [|d old]; [destruct post; discriminate H|].
    rewrite string_app_cons in H. cbn [occurs String.prefix] in H.
    destruct (ascii_dec d d) as [_|Hn]; [|congruence].
    apply orb_false_iff in H as [H _].
    clear -H. revert post H. induction old as [|x old IH]; intros post H.
    + destruct post; discriminate H.
    + rewrite string_app_cons in H. cbn [String.prefix] in H.
      destruct (ascii_dec x x) as [_|Hn]; [|congruence].
      exact (IH post H).
  - rewrite string_app_cons in E. subst s. cbn [occurs] in H.
    apply orb_false_iff in H as [_ H]. exact (IH _ H post eq_refl).
Qed.

Lemma name_without_mp4_is_kept_witness :
  snd (get_best_video_writer sample_world "clip.avi") = "clip.avi".
Proof.
  apply (name_without_mp4_is_kept sample_world "clip.avi").
  apply occurs_absent. reflexivity.
Defined.

Section DegradedRuns.

Variable cell : Type.
Variable norm : list cell -> cell.

Implicit Types (w : world cell) (self : generator cell)
  (rows : list (list cell)).

(** X13. When the loader ends with no transcriptions (file missing,
    unreadable, or without a single admitted line), every frame of a
    table of the fixed schema is still drawn, with the gesture text
    "No gesture data". *)
Theorem frames_without_annotations (trans : trans_source)
    (self0 : generator cell) ncols rows (left_role right_role : string)
    (f : Z) :
  Forall (fun r => length r = ncols) rows ->
  (76 <= ncols)%nat ->
  left_role ∈ roles -> right_role ∈ roles ->
  0 <= f < Z.of_nat (length rows) ->
  load_transcriptions trans = None ->
  let self := snd (load_data (KinArray (Arr2 ncols rows)) trans self0) in
  exists left_data right_data fr,
    extract_manipulator_data self left_role = Ok (Some left_data)
    /\ extract_manipulator_data self right_role = Ok (Some right_data)
    /\ animate norm (transcriptions_data self) left_data right_data f = Ok fr
    /\ gesture_text fr = "No gesture data".
Proof.
  intros Hwf Hn Hlr Hrr Hf Hnone. cbn [load_data array_len snd].
  set (self := Generator _ _ _ _ _).
  assert (kinematics_data self = Some (Arr2 ncols rows)) as Hk by reflexivity.
  destruct (extract_bundle_ok cell self ncols rows left_role Hk Hwf Hn Hlr)
    as (l & El & Hl).
  destruct (extract_bundle_ok cell self ncols rows right_role Hk Hwf Hn Hrr)
    as (r & Er & Hr).
  destruct (animate_ok cell norm (transcriptions_data self) l r
              (length rows) f Hl Hr Hf)
    as (fr & E & _ & _ & _ & _ & _ & Hg).
  exists l, r, fr. split; [exact El|]. split; [exact Er|].
  split; [exact E|]. rewrite Hg. cbn [self transcriptions_data].
  rewrite Hnone. reflexivity.
Qed.


End DegradedRuns.

Lemma frames_without_annotations_witness :
  exists left_data right_data fr,
    extract_manipulator_data
      (snd (load_data (KinArray (Arr2 76 two_row_table))
              (TransText "abc def G1") (init "B001" "Suturing")))
      "master_left" = Ok (Some left_data)
    /\ extract_manipulator_data
         (snd (load_data (KinArray (Arr2 76 two_row_table))
                 (TransText "abc def G1") (init "B001" "Suturing")))
         "master_right" = Ok (Some right_data)
    /\ animate (fun _ => 0) None left_data right_data 0 = Ok fr
    /\ gesture_text fr = "No gesture data".
Proof.
  destruct (frames_without_annotations Z (fun _ => 0)
              (TransText "abc def G1") (init "B001" "Suturing") 76
              two_row_table "master_left" "master_right" 0
              two_row_table_wf (le_n 76) in_roles_master_left
              in_roles_master_right)
    as (l & r & fr & H).
  - vm_compute. split; [discriminate|reflexivity].
  - vm_compute. reflexivity.
  - exists l, r, fr. exact H.
Defined.


(** ** Intervals that cover nothing *)

Lemma covers_nothing (iv : interval) (f : Z) :
  end_frame iv < start_frame iv -> ~ covers iv f.
Proof. unfold covers. lia. Qed.

Lemma gesture_scan_without (pre post : list interval) (iv : interval)
    (f : Z) :
  end_frame iv < start_frame iv ->
  gesture_scan (pre ++ iv :: post) f = gesture_scan (pre ++ post) f.
Proof.
  intros H. induction pre as [|iv' pre IH].
  - cbn [app]. apply gesture_scan_miss, covers_nothing, H.
  - cbn [app gesture_scan]. rewrite IH. reflexivity.
Qed.

(** X15. A line whose start frame exceeds its end frame is loaded but
    labels no frame: the scan of the intervals gives at every frame
    what it gives with that interval left out.  A file of such lines
    only therefore shows "Transition" on every frame, not
    "No gesture data". *)
Theorem reversed_interval_is_dead (pre post : list interval) (iv : interval)
    (f : Z) :
  end_frame iv < start_frame iv ->
  gesture_scan (pre ++ iv :: post) f = gesture_scan (pre ++ post) f
  /\ (Forall (fun iv' => end_frame iv' < start_frame iv') (pre ++ post) ->
      get_current_gesture (store_transcriptions (pre ++ iv :: post)) f
      = "Transition").
Proof.
  intros H. split; [apply gesture_scan_without, H|].
  intros Hall. rewrite store_transcriptions_app. cbn [get_current_gesture].
  rewrite gesture_scan_without by exact H.
  apply gesture_scan_none.
  eapply Forall_impl; [exact Hall|]. intros iv' Hiv'.
  apply covers_nothing, Hiv'.
Qed.

Lemma reversed_interval_is_dead_witness :
  get_current_gesture
    (store_transcriptions ([Interval 9 0 1] ++ Interval 30 10 2 :: [])) 20
  = "Transition".
Proof.
  apply (reversed_interval_is_dead [Interval 9 0 1] [] (Interval 30 10 2) 20).
  - simpl. lia.
  - repeat constructor.
Defined.
